(** * dbml-builder: the sync verifier and the model generator

    A shallow embedding of [src/dbml_builder/build.py]: the three
    functions [get_dbml_version], [verify] and [generate_models], run in
    a state-and-exception monad over a small model of the Python runtime
    (a file tree, [sys.stdout], a log of file-system mutations).

    The external collaborators (the DBML parser, the code generator, the
    patch functions of [dbml_builder.fix], [hashlib.sha1], [json] and the
    text layer of [open]) are interfaces, and the theorems hold for
    every implementation. Module [Double] implements the interfaces by
    small test doubles; module [Runs] runs the program on them.

    Layout: the model and the program, the properties of runs, the test
    doubles; then the lemmas on paths, on the monad and on the file
    tree, the theorems on [verify] and on [generate_models], and the
    runs. *)

From Stdlib Require Import Ascii String List Strings.Byte Bool Arith Lia.
From stdpp Require Import base option list gmap strings.

Set Warnings "-register-all".
Local Open Scope string_scope.
Local Open Scope list_scope.

(** ** Python values *)

(** [str] is Python text, [bytes] raw file content. *)
Abbreviation str := string.
Abbreviation bytes := (list byte).

(** The exceptions that can reach the caller. [LibraryError] stands for
    whatever an external collaborator raises. *)
Inductive exn : Type :=
  | FileNotFoundError
  | IsADirectoryError
  | NotADirectoryError
  | FileExistsError
  | KeyError (key : string)
  | TypeError
  | AttributeError
  | JSONDecodeError
  | UnicodeDecodeError
  | UnicodeEncodeError
  | LibraryError (what : string).

Inductive result (A : Type) : Type :=
  | Ok (a : A)
  | Raise (e : exn).
Arguments Ok {A} a.
Arguments Raise {A} e.

Definition raises {A} (r : result A) : Prop := exists e, r = Raise e.

(** JSON documents as [json.load] returns them. An object keeps its
    members in file order; a later duplicate key shadows an earlier one,
    as in the [dict] that [json.load] builds. *)
Inductive json : Type :=
  | JNull
  | JBool (b : bool)
  | JNum (lexeme : string)
  | JStr (s : str)
  | JList (items : list json)
  | JDict (members : list (string * json)).

Fixpoint dict_get (members : list (string * json)) (key : string) : option json :=
  match members with
  | [] => None
  | (k, v) :: rest =>
      match dict_get rest key with
      | Some later => Some later
      | None => if String.eqb k key then Some v else None
      end
  end.

(** [obj[key]] for a string key: only a dict can be subscripted so. *)
Definition getitem (obj : json) (key : string) : result json :=
  match obj with
  | JDict members =>
      match dict_get members key with
      | Some v => Ok v
      | None => Raise (KeyError key)
      end
  | _ => Raise TypeError
  end.

(** [value == s] for a JSON value and a [str]: equal only when the value
    is that very string. *)
Definition eq_str (value : json) (s : str) : bool :=
  match value with
  | JStr t => String.eqb t s
  | _ => false
  end.

(** The value [verify] returns once the files are read:
    [info['version'] == version and info['schema_hash'] == schema_hash
     and info['orm_hash'] == orm_hash]. The operator [and] evaluates its
    right operand only when the left one is true. *)
Definition info_matches (info : json) (version schema_hash orm_hash : str) : result bool :=
  match getitem info "version" with
  | Raise e => Raise e
  | Ok recorded_version =>
      if eq_str recorded_version version then
        match getitem info "schema_hash" with
        | Raise e => Raise e
        | Ok recorded_schema =>
            if eq_str recorded_schema schema_hash then
              match getitem info "orm_hash" with
              | Raise e => Raise e
              | Ok recorded_orm => Ok (eq_str recorded_orm orm_hash)
              end
            else Ok false
        end
      else Ok false
  end.

(** ** Paths: [os.path.join] and path resolution *)

Definition is_sep (c : ascii) : bool := Ascii.eqb c "/"%char.

Definition startswith_sep (s : string) : bool :=
  match s with
  | String c _ => is_sep c
  | EmptyString => false
  end.

Fixpoint endswith_sep (s : string) : bool :=
  match s with
  | EmptyString => false
  | String c EmptyString => is_sep c
  | String _ rest => endswith_sep rest
  end.

Definition is_empty (s : string) : bool :=
  match s with
  | EmptyString => true
  | _ => false
  end.

(** [posixpath.join(a, b)]. *)
Definition join (a b : string) : string :=
  if startswith_sep b then b
  else if is_empty a || endswith_sep a then a +:+ b
  else a +:+ "/" +:+ b.

(** The fields between separators; never the empty list. *)
Fixpoint fields (s : string) : list string :=
  match s with
  | EmptyString => [EmptyString]
  | String c rest =>
      if is_sep c then EmptyString :: fields rest
      else match fields rest with
           | f :: fs => String c f :: fs
           | [] => [String c EmptyString]
           end
  end.

Definition is_name (f : string) : bool :=
  negb (is_empty f) && negb (String.eqb f ".").

(** A resolved path: the root marker ["/"] for an absolute path, then
    the names. The empty list is the working directory. Empty fields and
    ["."] are dropped as the kernel does; [".."] and symbolic links are
    not interpreted. *)
Definition path : Type := list string.

Definition resolve (s : string) : path :=
  (if startswith_sep s then ["/"] else []) ++ filter (fun f => is_name f = true) (fields s).

Definition INFO : string := "info.json".
Definition SCHEMAS : string := "schema.py".
Definition ORM : string := "orm.py".

(** ** The runtime state *)

(** What [sys.stdout] is bound to: the stream the process started with,
    or a file object opened on some name. *)
Inductive stream : Type :=
  | OriginalStdout
  | FileObject (name : string).

Definition devnull : string := "/dev/null".

Inductive node : Type :=
  | File (content : bytes)
  | Dir.

(** Every mutation of the file tree is logged, in order. *)
Inductive fs_op : Type :=
  | Mkdir (p : path)
  | Truncate (p : path)
  | WriteBytes (p : path) (data : bytes).

Record world : Type := World {
  files : gmap path node;
  sys_stdout : stream;
  fs_log : list fs_op
}.

Definition set_files (fs : gmap path node) (op : fs_op) (w : world) : world :=
  World fs (sys_stdout w) (fs_log w ++ [op]).

Definition with_stdout (s : stream) (w : world) : world :=
  World (files w) s (fs_log w).

(** The working directory and the root always exist. The map is read as
    it is: an entry does not need its parent to be present. *)
Definition node_at (fs : gmap path node) (p : path) : option node :=
  if bool_decide (p = [] \/ p = ["/"]) then Some Dir else fs !! p.

(** [os.stat] of a path string; the empty string names nothing. *)
Definition stat (name : string) (w : world) : option node :=
  if is_empty name then None else node_at (files w) (resolve name).

Definition parent (p : path) : path := removelast p.

(** ** The monad: state and exceptions *)

Definition M (A : Type) : Type := world -> result A * world.

Definition ret {A} (a : A) : M A := fun w => (Ok a, w).
Definition raise {A} (e : exn) : M A := fun w => (Raise e, w).
Definition bind {A B} (m : M A) (k : A -> M B) : M B :=
  fun w =>
    match m w with
    | (Ok a, w') => k a w'
    | (Raise e, w') => (Raise e, w')
    end.
Definition lift {A} (r : result A) : M A := fun w => (r, w).

Declare Scope monad_scope.
Notation "x <- m ; k" := (bind m (fun x => k))
  (at level 100, m at next level, right associativity, only parsing) : monad_scope.
Notation "m ;; k" := (bind m (fun _ => k))
  (at level 100, right associativity, only parsing) : monad_scope.
Delimit Scope monad_scope with M.
Bind Scope monad_scope with M.
Local Open Scope monad_scope.

Definition get_stdout : M stream := fun w => (Ok (sys_stdout w), w).
Definition set_stdout (s : stream) : M unit := fun w => (Ok tt, with_stdout s w).

(** ** File operations *)

(** [os.path.exists]: false on any failure of [stat]. *)
Definition path_exists (name : string) : M bool :=
  fun w => (Ok (bool_decide (is_Some (stat name w))), w).

Definition read_node (found : option node) : M bytes :=
  match found with
  | Some (File content) => ret content
  | Some Dir => raise IsADirectoryError
  | None => raise FileNotFoundError
  end.

(** [with open(name, 'rb') as file: file.read()]. *)
Definition read_bytes (name : string) : M bytes :=
  fun w => read_node (stat name w) w.

(** [open(name, 'w')]: creates or truncates the file. *)
Definition open_w (name : string) : M unit :=
  fun w =>
    let p := resolve name in
    match stat name w with
    | Some Dir => (Raise IsADirectoryError, w)
    | _ =>
        if is_empty name then (Raise FileNotFoundError, w)
        else match node_at (files w) (parent p) with
             | Some Dir => (Ok tt, set_files (<[p := File []]> (files w)) (Truncate p) w)
             | Some (File _) => (Raise NotADirectoryError, w)
             | None => (Raise FileNotFoundError, w)
             end
    end.

(** One step of [os.makedirs]: [mkdir] of one prefix of the target; an
    existing directory is accepted ([exist_ok=True]). *)
Definition mkdir_step (target p : path) : M unit :=
  fun w =>
    match node_at (files w) p with
    | Some Dir => (Ok tt, w)
    | Some (File _) =>
        (Raise (if bool_decide (p = target) then FileExistsError else NotADirectoryError), w)
    | None => (Ok tt, set_files (<[p := Dir]> (files w)) (Mkdir p) w)
    end.

Fixpoint mkdir_all (target : path) (todo : list path) : M unit :=
  match todo with
  | [] => ret tt
  | p :: rest => mkdir_step target p ;; mkdir_all target rest
  end.

(** The non-empty prefixes of a path, shortest first. *)
Fixpoint prefixes (p : path) : list path :=
  match p with
  | [] => []
  | x :: rest => [x] :: map (cons x) (prefixes rest)
  end.

(** [os.makedirs(name, exist_ok=True)]. *)
Definition makedirs (name : string) : M unit :=
  if is_empty name then raise FileNotFoundError
  else mkdir_all (resolve name) (prefixes (resolve name)).

(** ** The external collaborators *)

(** The Python runtime and standard library, as far as the program uses
    them. [str_encode] is [str.encode()] (UTF-8); [text_encode] and
    [text_decode] are the text layer of a file opened in mode ['w'] or
    ['r'], which depends on the platform (locale encoding, newline
    translation). *)
Class Runtime : Type := {
  str_encode : str -> bytes;
  text_encode : str -> result bytes;
  text_decode : bytes -> result str;
  sha1_hexdigest : bytes -> str;
  json_dumps : json -> str;
  json_loads : str -> result json
}.

Inductive models_type : Type :=
  | Pydantic
  | Sqlalchemy.

(** The DBML parser ([pydbml]), the code generator ([omymodels]) and the
    patch functions of [dbml_builder.fix], which are not part of
    [build.py]. [create_models] returns a dict; the patch functions take
    whatever its ['code'] entry is. What [create_models] prints goes to
    whatever [sys.stdout] is bound to and is not recorded. *)
Class Collaborators : Type := {
  Dbml : Type;
  PyDBML : bytes -> result Dbml;
  dbml_sql : Dbml -> result str;
  project_note_text : Dbml -> result str;
  create_models : str -> models_type -> result json;
  patch_ddl : str -> result str;
  patch_schema : json -> result str;
  patch_orm : json -> result str
}.

(** ** The program *)

Section Build.

Context {R : Runtime} {C : Collaborators}.

(** [file.write(s)] on a file opened in text mode. *)
Definition file_write (name : string) (s : str) : M unit :=
  fun w =>
    match text_encode s with
    | Ok data =>
        (Ok tt, set_files (<[resolve name := File data]> (files w))
                          (WriteBytes (resolve name) data) w)
    | Raise e => (Raise e, w)
    end.

(** [with open(name, 'w') as file: file.write(s)]. *)
Definition write_text (name : string) (s : str) : M unit :=
  open_w name ;; file_write name s.

(** [with open(name, 'r') as file: load(file)]. *)
Definition load (name : string) : M json :=
  data <- read_bytes name;
  text <- lift (text_decode data);
  lift (json_loads text).

(** [with open(name, 'w') as file: dump(obj, file)]. *)
Definition dump (obj : json) (name : string) : M unit :=
  open_w name ;; file_write name (json_dumps obj).

(** [PyDBML(Path(dbml_path))]: [Path] turns the empty string into the
    working directory, so the file is looked up by its resolved path. *)
Definition PyDBML_path (dbml_path : string) : M Dbml :=
  source <- (fun w => read_node (node_at (files w) (resolve dbml_path)) w);
  lift (PyDBML source).

Definition get_dbml_version (dbml_path : string) : M str :=
  dbml <- PyDBML_path dbml_path;
  lift (project_note_text dbml).

Definition verify (version : str) (generated_dir : string) : M bool :=
  let info_path := join generated_dir INFO in
  let schema_path := join generated_dir SCHEMAS in
  let orm_path := join generated_dir ORM in
  info_exists <- path_exists info_path;
  both_exist <- (if info_exists : bool then path_exists schema_path else ret false);
  if both_exist : bool then
    orm_data <- read_bytes orm_path;
    let orm_hash := sha1_hexdigest orm_data in
    schema_data <- read_bytes schema_path;
    let schema_hash := sha1_hexdigest schema_data in
    info <- load info_path;
    lift (info_matches info version schema_hash orm_hash)
  else ret false.

Definition info_record (version schema_hash orm_hash : str) : json :=
  JDict [("version", JStr version);
         ("schema_hash", JStr schema_hash);
         ("orm_hash", JStr orm_hash)].

Definition generate_models (dbml_path generated_dir : string) : M unit :=
  makedirs generated_dir ;;
  dbml <- PyDBML_path dbml_path;
  sql <- lift (dbml_sql dbml);
  ddl <- lift (patch_ddl sql);
  visible <- get_stdout;
  set_stdout (FileObject devnull) ;;
  schemas <- lift (create_models ddl Pydantic);
  schemas_code <- lift (getitem schemas "code");
  schema_content <- lift (patch_schema schemas_code);
  let schemas_handle := join generated_dir SCHEMAS in
  orm <- lift (create_models ddl Sqlalchemy);
  orm_code <- lift (getitem orm "code");
  orm_content <- lift (patch_orm orm_code);
  let orm_handle := join generated_dir ORM in
  set_stdout visible ;;
  write_text schemas_handle schema_content ;;
  write_text orm_handle orm_content ;;
  version <- get_dbml_version dbml_path;
  let info := info_record version
                (sha1_hexdigest (str_encode schema_content))
                (sha1_hexdigest (str_encode orm_content)) in
  dump info (join generated_dir INFO).

End Build.

(** A file name: one field, and a name that resolution keeps. *)
Definition plain_name (n : string) : Prop :=
  fields n = [n] /\ is_name n = true /\ startswith_sep n = false.


(** ** Properties of runs *)

Definition is_mkdir (op : fs_op) : Prop :=
  match op with
  | Mkdir _ => True
  | _ => False
  end.

(** The operation creates, truncates or writes the file at [p]. *)
Definition writes_file (p : path) (op : fs_op) : Prop :=
  match op with
  | Mkdir _ => False
  | Truncate q => q = p
  | WriteBytes q _ => q = p
  end.

(** [w'] extends [w] by directories only: no file is written. *)
Record dirs_added (w w' : world) : Prop := {
  dirs_added_stdout : sys_stdout w' = sys_stdout w;
  dirs_added_log : exists ops, fs_log w' = fs_log w ++ ops /\ Forall is_mkdir ops;
  dirs_added_files : forall q,
    files w' !! q = files w !! q \/ (files w !! q = None /\ files w' !! q = Some Dir)
}.

(** An edit made behind the program's back: the file at [name] gets
    new content; nothing else changes. *)
Definition overwrite (name : string) (data : bytes) (w : world) : world :=
  World (<[resolve name := File data]> (files w)) (sys_stdout w) (fs_log w).

(** Two contents that differ in exactly one byte. *)
Definition one_byte_change (a b : bytes) : Prop :=
  exists front x y back, a = front ++ x :: back /\ b = front ++ y :: back /\ x <> y.

Definition bind_result {A B} (r : result A) (k : A -> result B) : result B :=
  match r with
  | Ok a => k a
  | Raise e => Raise e
  end.

(** A runtime whose text layer writes the UTF-8 encoding unchanged (a
    POSIX system with a UTF-8 locale) and whose [json.load] reads back
    the metadata that [json.dump] wrote. *)
Class Utf8Text (R : Runtime) : Prop := {
  text_encode_utf8 : forall s, text_encode s = Ok (str_encode s);
  load_dump : forall version schema_hash orm_hash,
    bind_result
      (text_decode (str_encode (json_dumps (info_record version schema_hash orm_hash))))
      json_loads
    = Ok (info_record version schema_hash orm_hash)
}.

(** A computation that leaves the world as it found it. *)
Definition readonly {A} (m : M A) : Prop := forall w, snd (m w) = w.

(** The ways in which the metadata stops [verify]: it does not parse, or
    a key that line 53 looks up is not there. [schema_hash] is looked up
    only when the versions agree, [orm_hash] only when the schema hashes
    agree as well. *)
Inductive fatal_metadata (version schema_hash : str) (parsed : result json) : Prop :=
  | not_parseable e :
      parsed = Raise e -> fatal_metadata version schema_hash parsed
  | no_version info :
      parsed = Ok info -> raises (getitem info "version") ->
      fatal_metadata version schema_hash parsed
  | no_schema_hash info :
      parsed = Ok info -> getitem info "version" = Ok (JStr version) ->
      raises (getitem info "schema_hash") ->
      fatal_metadata version schema_hash parsed
  | no_orm_hash info :
      parsed = Ok info -> getitem info "version" = Ok (JStr version) ->
      getitem info "schema_hash" = Ok (JStr schema_hash) ->
      raises (getitem info "orm_hash") ->
      fatal_metadata version schema_hash parsed.

Section Outcomes.

Context {R : Runtime} {C : Collaborators}.

(** Lines 69 and 70 of [generate_models] produce [ddl]. *)
Definition ddl_of (dbml_path : string) (w : world) (ddl : str) : Prop :=
  exists dbml sql,
    PyDBML_path dbml_path w = (Ok dbml, w) /\ dbml_sql dbml = Ok sql /\ patch_ddl sql = Ok ddl.

(** Lines 76 and 77 produce [schema_content]. *)
Definition schema_of (ddl schema_content : str) : Prop :=
  exists schemas code,
    create_models ddl Pydantic = Ok schemas /\ getitem schemas "code" = Ok code
    /\ patch_schema code = Ok schema_content.

(** Lines 80 and 81 produce [orm_content]. *)
Definition orm_of (ddl orm_content : str) : Prop :=
  exists orm code,
    create_models ddl Sqlalchemy = Ok orm /\ getitem orm "code" = Ok code
    /\ patch_orm code = Ok orm_content.

(** The run fails with [e] before standard output is redirected:
    while parsing the schema, deriving its SQL or patching the DDL. *)
Inductive fails_before_redirect (dbml_path : string) (w : world) (e : exn) : Prop :=
  | parse_fails :
      PyDBML_path dbml_path w = (Raise e, w) -> fails_before_redirect dbml_path w e
  | sql_fails dbml :
      PyDBML_path dbml_path w = (Ok dbml, w) -> dbml_sql dbml = Raise e ->
      fails_before_redirect dbml_path w e
  | patch_ddl_fails dbml sql :
      PyDBML_path dbml_path w = (Ok dbml, w) -> dbml_sql dbml = Ok sql ->
      patch_ddl sql = Raise e -> fails_before_redirect dbml_path w e.

(** The run fails with [e] in the first code-generation call or in the
    patch of its result. *)
Inductive schema_generation_fails (ddl : str) (e : exn) : Prop :=
  | pydantic_fails :
      create_models ddl Pydantic = Raise e -> schema_generation_fails ddl e
  | schema_code_fails schemas :
      create_models ddl Pydantic = Ok schemas -> getitem schemas "code" = Raise e ->
      schema_generation_fails ddl e
  | patch_schema_fails schemas code :
      create_models ddl Pydantic = Ok schemas -> getitem schemas "code" = Ok code ->
      patch_schema code = Raise e -> schema_generation_fails ddl e.

(** The same for the second call, the ORM flavour. *)
Inductive orm_generation_fails (ddl : str) (e : exn) : Prop :=
  | sqlalchemy_fails :
      create_models ddl Sqlalchemy = Raise e -> orm_generation_fails ddl e
  | orm_code_fails orm :
      create_models ddl Sqlalchemy = Ok orm -> getitem orm "code" = Raise e ->
      orm_generation_fails ddl e
  | patch_orm_fails orm code :
      create_models ddl Sqlalchemy = Ok orm -> getitem orm "code" = Ok code ->
      patch_orm code = Raise e -> orm_generation_fails ddl e.

(** The run fails with [e] while standard output is redirected. *)
Definition fails_while_redirected (dbml_path : string) (w : world) (e : exn) : Prop :=
  exists ddl,
    ddl_of dbml_path w ddl /\
    (schema_generation_fails ddl e \/
     exists schema_content, schema_of ddl schema_content /\ orm_generation_fails ddl e).

(** The run that starts in [w], past [makedirs], fails with [e] before
    line 86, where the first file is opened. *)
Definition fails_before_writing (dbml_path : string) (w : world) (e : exn) : Prop :=
  fails_before_redirect dbml_path w e \/ fails_while_redirected dbml_path w e.

(** The version that [get_dbml_version] reads in a file tree. *)
Definition version_in (fs : gmap path node) (dbml_path : string) : result str :=
  fst (get_dbml_version dbml_path (World fs OriginalStdout [])).

End Outcomes.

(** ** Test doubles for the collaborators

    Small implementations of the two interfaces, used to run the program
    on concrete inputs. *)

Module Double.

Definition dquote : ascii := ascii_of_nat 34.
Definition backslash : ascii := ascii_of_nat 92.

(** [lit ++ tail], by constructors. *)
Fixpoint onto (lit tail : string) : string :=
  match lit with
  | EmptyString => tail
  | String c rest => String c (onto rest tail)
  end.

(** *** UTF-8, for code points below 256 *)

Definition byte_of (n : N) : byte := default x00 (Byte.of_N n).

Definition utf8_char (c : ascii) : bytes :=
  let n := N_of_ascii c in
  if (n <? 128)%N then [byte_of n]
  else [byte_of (192 + n / 64); byte_of (128 + n mod 64)].

Fixpoint utf8_encode (s : str) : bytes :=
  match s with
  | EmptyString => []
  | String c rest => utf8_char c ++ utf8_encode rest
  end.

Definition cons_char (c : ascii) (r : result str) : result str :=
  match r with
  | Ok s => Ok (String c s)
  | Raise e => Raise e
  end.

(** Strict decoding; a code point above 255 does not fit this model's
    characters and is refused as well. *)
Fixpoint utf8_decode (data : bytes) : result str :=
  match data with
  | [] => Ok EmptyString
  | x :: rest =>
      let n := Byte.to_N x in
      if (n <? 128)%N then cons_char (ascii_of_N n) (utf8_decode rest)
      else if ((n =? 194) || (n =? 195))%N then
        match rest with
        | y :: rest' =>
            let m := Byte.to_N y in
            if ((128 <=? m) && (m <? 192))%N
            then cons_char (ascii_of_N ((n - 192) * 64 + (m - 128))) (utf8_decode rest')
            else Raise UnicodeDecodeError
        | [] => Raise UnicodeDecodeError
        end
      else Raise UnicodeDecodeError
  end.

(** *** A digest without collisions: the hexadecimal dump *)

Definition hex_digit (n : N) : ascii :=
  match String.get (N.to_nat n) "0123456789abcdef" with
  | Some c => c
  | None => "?"%char
  end.

Definition hex_value (c : ascii) : option N :=
  let n := N_of_ascii c in
  if ((48 <=? n) && (n <=? 57))%N then Some (n - 48)%N
  else if ((97 <=? n) && (n <=? 102))%N then Some (n - 87)%N
  else if ((65 <=? n) && (n <=? 70))%N then Some (n - 55)%N
  else None.

Fixpoint hex_dump (data : bytes) : str :=
  match data with
  | [] => EmptyString
  | x :: rest =>
      String (hex_digit (Byte.to_N x / 16))
        (String (hex_digit (Byte.to_N x mod 16)) (hex_dump rest))
  end.

Definition unhex_byte (hi lo : ascii) : byte :=
  match hex_value hi, hex_value lo with
  | Some h, Some l => byte_of (16 * h + l)
  | _, _ => x00
  end.

(** *** JSON, as [json.dumps] writes it and [json.loads] reads it *)

Definition printable (c : ascii) : bool :=
  let n := N_of_ascii c in ((32 <=? n) && (n <=? 126))%N.

(** The short escapes: the letter after the backslash, and the
    character it stands for. *)
Definition short_escapes : list (ascii * ascii) :=
  [(dquote, dquote); (backslash, backslash);
   ("n"%char, ascii_of_nat 10); ("r"%char, ascii_of_nat 13);
   ("t"%char, ascii_of_nat 9); ("b"%char, ascii_of_nat 8);
   ("f"%char, ascii_of_nat 12)].

Fixpoint letter_of (table : list (ascii * ascii)) (c : ascii) : option ascii :=
  match table with
  | [] => None
  | (letter, char) :: rest => if Ascii.eqb char c then Some letter else letter_of rest c
  end.

Fixpoint char_of (table : list (ascii * ascii)) (letter : ascii) : option ascii :=
  match table with
  | [] => None
  | (l, char) :: rest => if Ascii.eqb l letter then Some char else char_of rest letter
  end.

(** One character of a string literal ([ensure_ascii=True]). *)
Definition emit (c : ascii) (tail : string) : string :=
  match letter_of short_escapes c with
  | Some letter => String backslash (String letter tail)
  | None =>
      if printable c then String c tail
      else
        let n := N_of_ascii c in
        String backslash (String "u" (String "0" (String "0"
          (String (hex_digit (n / 16)) (String (hex_digit (n mod 16)) tail)))))
  end.

Fixpoint escape_onto (s tail : string) : string :=
  match s with
  | EmptyString => tail
  | String c rest => emit c (escape_onto rest tail)
  end.

Definition quote_onto (s tail : string) : string :=
  String dquote (escape_onto s (String dquote tail)).

Fixpoint dumps_onto (j : json) (tail : string) : string :=
  match j with
  | JNull => onto "null" tail
  | JBool true => onto "true" tail
  | JBool false => onto "false" tail
  | JNum lexeme => onto lexeme tail
  | JStr s => quote_onto s tail
  | JList items =>
      String "["
        ((fix go (l : list json) : string :=
            match l with
            | [] => String "]" tail
            | x :: rest =>
                dumps_onto x
                  match rest with
                  | [] => go rest
                  | _ :: _ => onto ", " (go rest)
                  end
            end) items)
  | JDict members =>
      String "{"
        ((fix go (l : list (string * json)) : string :=
            match l with
            | [] => String "}" tail
            | (k, v) :: rest =>
                quote_onto k (onto ": "
                  (dumps_onto v
                     match rest with
                     | [] => go rest
                     | _ :: _ => onto ", " (go rest)
                     end))
            end) members)
  end.

Definition dumps (j : json) : str := dumps_onto j EmptyString.

Definition is_ws (c : ascii) : bool :=
  let n := N_of_ascii c in ((n =? 32) || (n =? 10) || (n =? 13) || (n =? 9))%N.

Fixpoint skip_ws (s : string) : string :=
  match s with
  | EmptyString => EmptyString
  | String c rest => if is_ws c then skip_ws rest else s
  end.

(** The code point of a [\uXXXX] escape, when it is below 256. *)
Definition hex4 (h1 h2 h3 h4 : ascii) : option ascii :=
  match hex_value h1, hex_value h2, hex_value h3, hex_value h4 with
  | Some 0%N, Some 0%N, Some a, Some b => Some (ascii_of_N (16 * a + b))
  | _, _, _, _ => None
  end.

Definition cons_parsed (c : ascii) (r : option (string * string)) : option (string * string) :=
  match r with
  | Some (t, rest) => Some (String c t, rest)
  | None => None
  end.

(** The characters of a string literal, after its opening quote. *)
Fixpoint parse_chars (s : string) : option (string * string) :=
  match s with
  | EmptyString => None
  | String c rest =>
      if Ascii.eqb c dquote then Some (EmptyString, rest)
      else if Ascii.eqb c backslash then
        match rest with
        | EmptyString => None
        | String e rest1 =>
            match char_of (("/"%char, "/"%char) :: short_escapes) e with
            | Some d => cons_parsed d (parse_chars rest1)
            | None =>
                if Ascii.eqb e "u" then
                  match rest1 with
                  | String h1 (String h2 (String h3 (String h4 rest2))) =>
                      match hex4 h1 h2 h3 h4 with
                      | Some d => cons_parsed d (parse_chars rest2)
                      | None => None
                      end
                  | _ => None
                  end
                else None
            end
        end
      else if (N_of_ascii c <? 32)%N then None
      else cons_parsed c (parse_chars rest)
  end.

Fixpoint strip_prefix (p s : string) : option string :=
  match p, s with
  | EmptyString, _ => Some s
  | String a p', String b s' => if Ascii.eqb a b then strip_prefix p' s' else None
  | String _ _, EmptyString => None
  end.

Definition is_number_char (c : ascii) : bool :=
  let n := N_of_ascii c in
  ((48 <=? n) && (n <=? 57) || (n =? 45) || (n =? 43) || (n =? 46) || (n =? 101) || (n =? 69))%N.

Fixpoint span_number (s : string) : string * string :=
  match s with
  | EmptyString => (EmptyString, EmptyString)
  | String c rest =>
      if is_number_char c
      then let '(lexeme, r) := span_number rest in (String c lexeme, r)
      else (EmptyString, s)
  end.

Definition parse_atom (s : string) : option (json * string) :=
  match strip_prefix "null" s, strip_prefix "true" s, strip_prefix "false" s with
  | Some r, _, _ => Some (JNull, r)
  | _, Some r, _ => Some (JBool true, r)
  | _, _, Some r => Some (JBool false, r)
  | _, _, _ =>
      match span_number s with
      | (EmptyString, _) => None
      | (lexeme, r) => Some (JNum lexeme, r)
      end
  end.

Fixpoint parse_value (fuel : nat) (s : string) {struct fuel} : option (json * string) :=
  match fuel with
  | 0 => None
  | S fuel' =>
      match skip_ws s with
      | EmptyString => None
      | String c rest =>
          if Ascii.eqb c dquote then
            match parse_chars rest with
            | Some (t, r) => Some (JStr t, r)
            | None => None
            end
          else if Ascii.eqb c "{" then
            match strip_prefix "}" (skip_ws rest) with
            | Some r => Some (JDict [], r)
            | None =>
                match parse_members fuel' rest with
                | Some (members, r) => Some (JDict members, r)
                | None => None
                end
            end
          else if Ascii.eqb c "[" then
            match strip_prefix "]" (skip_ws rest) with
            | Some r => Some (JList [], r)
            | None =>
                match parse_items fuel' rest with
                | Some (items, r) => Some (JList items, r)
                | None => None
                end
            end
          else parse_atom (String c rest)
      end
  end
with parse_members (fuel : nat) (s : string) {struct fuel}
    : option (list (string * json) * string) :=
  match fuel with
  | 0 => None
  | S fuel' =>
      match strip_prefix (String dquote EmptyString) (skip_ws s) with
      | None => None
      | Some r0 =>
          match parse_chars r0 with
          | None => None
          | Some (k, r1) =>
              match strip_prefix ":" (skip_ws r1) with
              | None => None
              | Some r2 =>
                  match parse_value fuel' r2 with
                  | None => None
                  | Some (v, r3) =>
                      match strip_prefix "," (skip_ws r3), strip_prefix "}" (skip_ws r3) with
                      | Some r4, _ =>
                          match parse_members fuel' r4 with
                          | Some (members, r5) => Some ((k, v) :: members, r5)
                          | None => None
                          end
                      | None, Some r4 => Some ([(k, v)], r4)
                      | None, None => None
                      end
                  end
              end
          end
      end
  end
with parse_items (fuel : nat) (s : string) {struct fuel} : option (list json * string) :=
  match fuel with
  | 0 => None
  | S fuel' =>
      match parse_value fuel' s with
      | None => None
      | Some (v, r1) =>
          match strip_prefix "," (skip_ws r1), strip_prefix "]" (skip_ws r1) with
          | Some r2, _ =>
              match parse_items fuel' r2 with
              | Some (items, r3) => Some (v :: items, r3)
              | None => None
              end
          | None, Some r2 => Some ([v], r2)
          | None, None => None
          end
      end
  end.

Definition loads (text : str) : result json :=
  match parse_value (S (String.length text)) text with
  | Some (j, rest) => if is_empty (skip_ws rest) then Ok j else Raise JSONDecodeError
  | None => Raise JSONDecodeError
  end.

(** The runtime of a POSIX system with a UTF-8 locale, with the
    hexadecimal dump standing in for SHA-1. *)
Definition posix : Runtime := {|
  str_encode := utf8_encode;
  text_encode := fun s => Ok (utf8_encode s);
  text_decode := utf8_decode;
  sha1_hexdigest := hex_dump;
  json_dumps := dumps;
  json_loads := loads
|}.

(** A toy schema language: the first line of the source is the project
    note, the rest is the SQL. A source of one line has no project note;
    an empty source does not parse. *)
Record toy_dbml : Type := { toy_note : option str; toy_sql : str }.

Fixpoint split_line (s : string) : option (string * string) :=
  match s with
  | EmptyString => None
  | String c rest =>
      if Ascii.eqb c (ascii_of_nat 10) then Some (EmptyString, rest)
      else match split_line rest with
           | Some (line, r) => Some (String c line, r)
           | None => None
           end
  end.

Definition toy_parse (source : bytes) : result toy_dbml :=
  match utf8_decode source with
  | Raise e => Raise e
  | Ok text =>
      if is_empty text then Raise (LibraryError "syntax error")
      else match split_line text with
           | Some (line, r) => Ok {| toy_note := Some line; toy_sql := r |}
           | None => Ok {| toy_note := None; toy_sql := text |}
           end
  end.

Definition toy_note_text (d : toy_dbml) : result str :=
  match toy_note d with
  | Some text => Ok text
  | None => Raise AttributeError
  end.

(** A toy generator: the code is the DDL under a header. The ORM
    flavour refuses a DDL that starts with an exclamation mark. *)
Definition toy_create_models (ddl : str) (flavour : models_type) : result json :=
  match flavour, ddl with
  | Sqlalchemy, String "!" _ => Raise (LibraryError "cannot generate")
  | Sqlalchemy, _ => Ok (JDict [("metadata", JDict []); ("code", JStr (onto "# orm " ddl))])
  | Pydantic, _ => Ok (JDict [("metadata", JDict []); ("code", JStr (onto "# schema " ddl))])
  end.

Definition toy_patch (code : json) : result str :=
  match code with
  | JStr text => Ok text
  | _ => Raise TypeError
  end.

Definition toy : Collaborators := {|
  Dbml := toy_dbml;
  PyDBML := toy_parse;
  dbml_sql := fun d => Ok (toy_sql d);
  project_note_text := toy_note_text;
  create_models := toy_create_models;
  patch_ddl := fun sql => Ok sql;
  patch_schema := toy_patch;
  patch_orm := toy_patch
|}.

Definition start (fs : gmap path node) : world := World fs OriginalStdout [].

Definition newline : ascii := ascii_of_nat 10.

(** A working directory that holds the schema source and nothing else. *)
Definition project (source : str) : world :=
  start {[ ["schema.dbml"] := File (utf8_encode source) ]}.

(** Version 1.0.0 and one table. *)
Definition good_source : str := onto "1.0.0" (String newline "CREATE TABLE t").

(** A schema that the ORM flavour of the toy generator refuses. *)
Definition refused_source : str := onto "1.0.0" (String newline "!CREATE TABLE t").

(** A schema without a project note. *)
Definition unversioned_source : str := "CREATE TABLE t".

(** An output directory as generation leaves it: the metadata, and the
    two generated files. *)
Definition generated (info : json) (schema_data orm_data : bytes) : world :=
  start (<[ ["out"; "info.json"] := File (utf8_encode (dumps info)) ]>
        (<[ ["out"; "orm.py"] := File orm_data ]>
        (<[ ["out"; "schema.py"] := File schema_data ]>
         {[ ["out"] := Dir ]}))).

(** An output directory that lacks [orm.py]. *)
Definition without_orm : world :=
  start (<[ ["out"; "info.json"] := File [] ]>
        (<[ ["out"; "schema.py"] := File [] ]> {[ ["out"] := Dir ]})).

Definition sample_schema : bytes := utf8_encode "class T: pass".
Definition sample_orm : bytes := utf8_encode "t = Table()".
Definition sample_members : list (string * json) :=
  [("version", JStr "1.0.0");
   ("schema_hash", JStr (hex_dump sample_schema));
   ("orm_hash", JStr (hex_dump sample_orm))].
Definition in_sync_dir : world := generated (JDict sample_members) sample_schema sample_orm.

(** Metadata that records a version and no hashes. *)
Definition version_only : json := JDict [("version", JStr "0.9.0")].
Definition version_only_dir : world := generated version_only sample_schema sample_orm.

(** Metadata without a version. *)
Definition no_keys_dir : world := generated (JDict []) sample_schema sample_orm.

(** The world after generating from the good source. *)
Definition fresh : world := snd (generate_models (R := posix) (C := toy) "schema.dbml" "out" (project good_source)).

Definition generated_schema : bytes := utf8_encode "# schema CREATE TABLE t".
Definition edited_schema : bytes := utf8_encode "# schema CREATE TABLE u".


Definition refusal : exn := LibraryError "cannot generate".

End Double.

(** ** Further properties of runs *)

Section Outputs.

Context {R : Runtime} {C : Collaborators}.

(** Lines 86 to 100 of [generate_models], where the two files and the
    metadata are written. *)
Definition write_artifacts (dbml_path generated_dir : string)
    (schema_content orm_content : str) : M unit :=
  write_text (join generated_dir SCHEMAS) schema_content ;;
  write_text (join generated_dir ORM) orm_content ;;
  version <- get_dbml_version dbml_path;
  let info := info_record version
                (sha1_hexdigest (str_encode schema_content))
                (sha1_hexdigest (str_encode orm_content)) in
  dump info (join generated_dir INFO).

End Outputs.

(** A path spelled with names only, without [..]. The file tree has
    no links, so two such paths of the same kind (both absolute, or both
    relative to the working directory) name the same file exactly when
    they are equal. *)
Definition dotless (p : path) : Prop :=
  Forall (fun f => is_name f = true /\ f <> "..") p.

Definition absolute (p : path) : bool := bool_decide (head p = Some "/").

(** The three paths that [generate_models] writes. *)
Definition output_paths (generated_dir : string) : list path :=
  [resolve (join generated_dir SCHEMAS);
   resolve (join generated_dir ORM);
   resolve (join generated_dir INFO)].

(** The mutations of a complete write of the three files, in order. *)
Definition write_ops (generated_dir : string) (schema_data orm_data info_data : bytes)
    : list fs_op :=
  [Truncate (resolve (join generated_dir SCHEMAS));
   WriteBytes (resolve (join generated_dir SCHEMAS)) schema_data;
   Truncate (resolve (join generated_dir ORM));
   WriteBytes (resolve (join generated_dir ORM)) orm_data;
   Truncate (resolve (join generated_dir INFO));
   WriteBytes (resolve (join generated_dir INFO)) info_data].

(** Every run of [m] relates the world before to the world after by [P]. *)
Definition keeps {A} (P : world -> world -> Prop) (m : M A) : Prop :=
  forall w r w', m w = (r, w') -> P w w'.

(** Outside [keys] the file tree is as before, up to new directories. *)
Definition others_kept (keys : list path) (w w' : world) : Prop :=
  forall q, q ∉ keys ->
    files w' !! q = files w !! q \/ (files w !! q = None /\ files w' !! q = Some Dir).

(** No path is removed and none changes its kind: a regular file stays
    a regular file, a directory stays a directory. *)
Definition kinds_kept (w w' : world) : Prop :=
  (forall q c, files w !! q = Some (File c) -> exists c', files w' !! q = Some (File c')) /\
  (forall q, files w !! q = Some Dir -> files w' !! q = Some Dir).

(** Further worlds and a second runtime for the runs. *)
Module Cases.

Import Double.

(** A runtime whose locale encodes ASCII only. *)
Fixpoint ascii_only (s : str) : bool :=
  match s with
  | EmptyString => true
  | String c rest => (N_of_ascii c <? 128)%N && ascii_only rest
  end.

Definition ascii_encode (s : str) : result bytes :=
  if ascii_only s then Ok (utf8_encode s) else Raise UnicodeEncodeError.

Definition ascii_locale : Runtime := {|
  str_encode := utf8_encode;
  text_encode := ascii_encode;
  text_decode := utf8_decode;
  sha1_hexdigest := hex_dump;
  json_dumps := dumps;
  json_loads := loads
|}.

(** A schema whose SQL holds a letter outside ASCII. *)
Definition accented_sql : str :=
  onto "CREATE TABLE caf" (String (ascii_of_nat 233) EmptyString).

Definition accented_source : str := onto "1.0.0" (String newline accented_sql).

(** The worlds that [makedirs] leaves in three projects. *)
Definition accented_after_makedirs : world :=
  snd (makedirs "out" (project accented_source)).


(** The world after a run on the source without a project note. *)
Definition half_written : world :=
  snd (generate_models (R := posix) (C := toy) "schema.dbml" "out"
         (project unversioned_source)).

(** The project of the good source, with a directory where [orm.py]
    is to be written. *)
Definition orm_blocked : world :=
  start (<[ ["out"; "orm.py"] := Dir ]>
        (<[ ["out"] := Dir ]>
         {[ ["schema.dbml"] := File (utf8_encode good_source) ]})).

(** An output directory in which [schema.py] is a directory. *)
Definition schema_is_dir : world :=
  start (<[ ["out"; "info.json"] := File [] ]>
        (<[ ["out"; "orm.py"] := File [] ]>
        (<[ ["out"; "schema.py"] := Dir ]> {[ ["out"] := Dir ]}))).

(** *** Other locales *)

(** ISO 8859-1: one byte for each character. *)
Definition latin1_encode (s : str) : bytes :=
  map (fun c => byte_of (N_of_ascii c)) (list_ascii_of_string s).

Definition latin1_decode (data : bytes) : str :=
  string_of_list_ascii (map (fun x => ascii_of_N (Byte.to_N x)) data).

Definition latin1_locale : Runtime := {|
  str_encode := utf8_encode;
  text_encode := fun s => Ok (latin1_encode s);
  text_decode := fun data => Ok (latin1_decode data);
  sha1_hexdigest := hex_dump;
  json_dumps := dumps;
  json_loads := loads
|}.

(** GBK, as far as it encodes code points below 256: ASCII in one
    byte, twenty further characters in two bytes, the others not at
    all. *)
Definition gbk_table : list (N * (N * N)) :=
  [(164, (161, 232)); (167, (161, 236)); (168, (161, 167)); (176, (161, 227));
   (177, (161, 192)); (183, (161, 164)); (215, (161, 193)); (224, (168, 164));
   (225, (168, 162)); (232, (168, 168)); (233, (168, 166)); (234, (168, 186));
   (236, (168, 172)); (237, (168, 170)); (242, (168, 176)); (243, (168, 174));
   (247, (161, 194)); (249, (168, 180)); (250, (168, 178)); (252, (168, 185))]%N.

Fixpoint gbk_pair (table : list (N * (N * N))) (n : N) : option (N * N) :=
  match table with
  | [] => None
  | (m, found) :: rest => if (m =? n)%N then Some found else gbk_pair rest n
  end.

Fixpoint gbk_point (table : list (N * (N * N))) (hi lo : N) : option N :=
  match table with
  | [] => None
  | (m, (h, l)) :: rest => if ((h =? hi) && (l =? lo))%N then Some m else gbk_point rest hi lo
  end.

Definition gbk_char (c : ascii) : option bytes :=
  let n := N_of_ascii c in
  if (n <? 128)%N then Some [byte_of n]
  else match gbk_pair gbk_table n with
       | Some (hi, lo) => Some [byte_of hi; byte_of lo]
       | None => None
       end.

Fixpoint gbk_encode (s : str) : result bytes :=
  match s with
  | EmptyString => Ok []
  | String c rest =>
      match gbk_char c with
      | None => Raise UnicodeEncodeError
      | Some first =>
          match gbk_encode rest with
          | Ok tail => Ok (first ++ tail)
          | Raise e => Raise e
          end
      end
  end.

(** Strict decoding; a sequence that stands for a code point above 255
    does not fit this model's characters and is refused as well. *)
Fixpoint gbk_decode (data : bytes) : result str :=
  match data with
  | [] => Ok EmptyString
  | x :: rest =>
      let n := Byte.to_N x in
      if (n <? 128)%N then cons_char (ascii_of_N n) (gbk_decode rest)
      else match rest with
           | y :: rest' =>
               match gbk_point gbk_table n (Byte.to_N y) with
               | Some m => cons_char (ascii_of_N m) (gbk_decode rest')
               | None => Raise UnicodeDecodeError
               end
           | [] => Raise UnicodeDecodeError
           end
  end.

Definition gbk_locale : Runtime := {|
  str_encode := utf8_encode;
  text_encode := gbk_encode;
  text_decode := gbk_decode;
  sha1_hexdigest := hex_dump;
  json_dumps := dumps;
  json_loads := loads
|}.

(** A generator that copies the DDL into the Pydantic code only. *)
Definition terse_create_models (ddl : str) (flavour : models_type) : result json :=
  match flavour with
  | Pydantic => toy_create_models ddl Pydantic
  | Sqlalchemy => Ok (JDict [("metadata", JDict []); ("code", JStr "# orm")])
  end.

Definition terse : Collaborators := {|
  Dbml := toy_dbml;
  PyDBML := toy_parse;
  dbml_sql := fun d => Ok (toy_sql d);
  project_note_text := toy_note_text;
  create_models := terse_create_models;
  patch_ddl := fun sql => Ok sql;
  patch_schema := toy_patch;
  patch_orm := toy_patch
|}.

(** A schema whose SQL holds one letter with a grave accent. *)
Definition grave_sql : str :=
  onto "CREATE TABLE cr" (String (ascii_of_nat 232) "me").

Definition grave_source : str := onto "1.0.0" (String newline grave_sql).

(** The output of a run under the ISO 8859-1 locale. *)
Definition latin1_fresh : world :=
  snd (generate_models (R := latin1_locale) (C := toy) "schema.dbml" "out"
         (project accented_source)).

(** The output of a run under the GBK locale, the bytes of its
    [schema.py], and those bytes with the first byte of the accented
    letter changed. *)
Definition gbk_fresh : world :=
  snd (generate_models (R := gbk_locale) (C := terse) "schema.dbml" "out"
         (project grave_source)).

Definition gbk_schema : bytes :=
  utf8_encode "# schema CREATE TABLE cr" ++ [xa8; xa8] ++ utf8_encode "me".

Definition gbk_edited : bytes :=
  utf8_encode "# schema CREATE TABLE cr" ++ [xc3; xa8] ++ utf8_encode "me".

End Cases.


(** * Paths *)

Section Paths.

Lemma app_cons c a b : String c a +:+ b = String c (a +:+ b).
Proof. reflexivity. Qed.

Lemma app_empty_l b : "" +:+ b = b.
Proof. reflexivity. Qed.

Lemma app_empty_r a : a +:+ "" = a.
Proof. induction a as [|c a IH]; [reflexivity|]. now rewrite app_cons, IH. Qed.

Lemma app_assoc_str a b c : (a +:+ b) +:+ c = a +:+ (b +:+ c).
Proof. induction a as [|x a IH]; [reflexivity|]. now rewrite !app_cons, IH. Qed.

Lemma fields_nonempty s : fields s <> [].
Proof.
  destruct s as [|c s]; simpl; [discriminate|].
  destruct (is_sep c); [discriminate|].
  destruct (fields s); discriminate.
Qed.

Lemma fields_app_sep a b : fields (a +:+ String "/" b) = fields a ++ fields b.
Proof.
  induction a as [|c a IH]; [reflexivity|].
  rewrite app_cons. simpl. rewrite IH.
  destruct (is_sep c); [reflexivity|].
  pose proof (fields_nonempty a) as Hne.
  destruct (fields a); [congruence|reflexivity].
Qed.

Lemma endswith_sep_snoc a :
  endswith_sep a = true -> exists a0, a = a0 +:+ "/".
Proof.
  induction a as [|c a IH]; simpl; [discriminate|].
  destruct a as [|c' a'].
  - unfold is_sep. intros H. apply Ascii.eqb_eq in H. subst c.
    now exists "".
  - intros H. destruct (IH H) as [a0 Ha0]. exists (String c a0).
    now rewrite app_cons, <- Ha0.
Qed.

Lemma startswith_sep_app a b :
  is_empty a = false -> startswith_sep (a +:+ b) = startswith_sep a.
Proof. destruct a; [discriminate|reflexivity]. Qed.

Lemma plain_INFO : plain_name INFO.
Proof. repeat split. Qed.
Lemma plain_SCHEMAS : plain_name SCHEMAS.
Proof. repeat split. Qed.
Lemma plain_ORM : plain_name ORM.
Proof. repeat split. Qed.

(** [join] puts the name below the directory. *)
Lemma resolve_join d n : plain_name n -> resolve (join d n) = resolve d ++ [n].
Proof.
  intros (Hf & Hn & Hs). unfold join. rewrite Hs.
  assert (Hkeep : filter (fun f => is_name f = true) [n] = [n]).
  { rewrite filter_cons_True by exact Hn. reflexivity. }
  destruct (is_empty d) eqn:Hd; simpl.
  - destruct d; [|discriminate]. rewrite app_empty_l. unfold resolve.
    rewrite Hs, Hf, Hkeep. reflexivity.
  - destruct (endswith_sep d) eqn:He.
    + destruct (endswith_sep_snoc d He) as [d0 ->].
      unfold resolve. rewrite startswith_sep_app by exact Hd.
      rewrite app_assoc_str, app_cons, app_empty_l.
      rewrite fields_app_sep, Hf, fields_app_sep. simpl fields.
      rewrite !filter_app, Hkeep.
      rewrite (filter_cons_False _ "") by (vm_compute; discriminate).
      rewrite filter_nil, app_nil_r. now rewrite app_assoc.
    + unfold resolve. rewrite startswith_sep_app by exact Hd.
      rewrite app_cons, app_empty_l.
      rewrite fields_app_sep, Hf, filter_app, Hkeep.
      now rewrite app_assoc.
Qed.

Lemma join_nonempty d n : plain_name n -> is_empty (join d n) = false.
Proof.
  intros (Hf & Hn & Hs). unfold join. rewrite Hs.
  assert (Hne : is_empty n = false).
  { unfold is_name in Hn. destruct (is_empty n); [discriminate|reflexivity]. }
  destruct d as [|c d]; [exact Hne|].
  destruct (is_empty (String c d) || endswith_sep (String c d)); reflexivity.
Qed.

Lemma plain_name_not_root n : plain_name n -> n <> "/".
Proof. intros (Hf & _ & _) ->. discriminate Hf. Qed.

(** The node below a directory is never the working directory or the root. *)
Lemma node_at_child fs (p : path) n :
  n <> "/" -> node_at fs (p ++ [n]) = fs !! (p ++ [n]).
Proof.
  intros Hn. unfold node_at. rewrite bool_decide_eq_false_2; [reflexivity|].
  intros [H|H].
  - destruct p; discriminate H.
  - destruct p as [|x [|y p]]; simpl in H; congruence.
Qed.

Lemma prefixes_length (p q : path) : q ∈ prefixes p -> length q <= length p.
Proof.
  revert q. induction p as [|x p IH]; intros q; simpl.
  - intros H. inversion H.
  - rewrite elem_of_cons, list_elem_of_fmap.
    intros [->|(q' & -> & Hq')]; simpl; [lia|]. apply IH in Hq'. lia.
Qed.

Lemma child_not_prefix (p : path) n : p ++ [n] ∉ prefixes p.
Proof.
  intros H. apply prefixes_length in H. rewrite length_app in H. simpl in H. lia.
Qed.

Lemma prefixes_last (p : path) : p <> [] -> p ∈ prefixes p.
Proof.
  induction p as [|x p IH]; [congruence|]. intros _. simpl.
  destruct p as [|y p]; [left|].
  right. apply list_elem_of_fmap. exists (y :: p). split; [reflexivity|].
  apply IH. discriminate.
Qed.

End Paths.

(** * The monad *)

Section MonadLemmas.

Context {A B : Type}.

Lemma bind_ok (m : M A) (k : A -> M B) w a w1 :
  m w = (Ok a, w1) -> bind m k w = k a w1.
Proof. intros H. unfold bind. now rewrite H. Qed.

Lemma bind_raise (m : M A) (k : A -> M B) w e w1 :
  m w = (Raise e, w1) -> bind m k w = (Raise e, w1).
Proof. intros H. unfold bind. now rewrite H. Qed.

Lemma bind_ok_inv (m : M A) (k : A -> M B) w b w' :
  bind m k w = (Ok b, w') -> exists a w1, m w = (Ok a, w1) /\ k a w1 = (Ok b, w').
Proof.
  unfold bind. destruct (m w) as [[a|e] w1]; intros H; [|discriminate].
  now exists a, w1.
Qed.

Lemma lift_ok_inv (r : result A) w a w' : lift r w = (Ok a, w') -> r = Ok a /\ w' = w.
Proof. unfold lift. intros H. now inversion H. Qed.

End MonadLemmas.

Lemma readonly_bind {A B} (m : M A) (k : A -> M B) :
  readonly m -> (forall a, readonly (k a)) -> readonly (bind m k).
Proof.
  intros Hm Hk w. unfold bind. specialize (Hm w).
  destruct (m w) as [[a|e] w1]; simpl in Hm; subst w1; [apply Hk|reflexivity].
Qed.

Lemma readonly_lift {A} (r : result A) : readonly (lift r).
Proof. intros w. reflexivity. Qed.

Lemma readonly_ret {A} (a : A) : readonly (ret a).
Proof. intros w. reflexivity. Qed.

Lemma readonly_read_node found : readonly (read_node found).
Proof. intros w. destruct found as [[c|]|]; reflexivity. Qed.

Lemma readonly_read_bytes name : readonly (read_bytes name).
Proof. intros w. unfold read_bytes. apply readonly_read_node. Qed.

Lemma readonly_path_exists name : readonly (path_exists name).
Proof. intros w. reflexivity. Qed.

Create HintDb readonly.
#[local] Hint Resolve readonly_lift readonly_ret readonly_read_bytes
  readonly_path_exists : readonly.

(** * The sync verifier *)

Section Verify.

Context {R : Runtime} {C : Collaborators}.

Lemma readonly_load name : readonly (load name).
Proof.
  unfold load. apply readonly_bind; [auto with readonly|]. intros data.
  apply readonly_bind; auto with readonly.
Qed.

Lemma readonly_PyDBML_path dbml_path : readonly (PyDBML_path dbml_path).
Proof.
  unfold PyDBML_path. apply readonly_bind; [|auto with readonly].
  intros w. apply readonly_read_node.
Qed.

Lemma readonly_get_dbml_version dbml_path : readonly (get_dbml_version dbml_path).
Proof.
  unfold get_dbml_version. apply readonly_bind; [|auto with readonly].
  apply readonly_PyDBML_path.
Qed.

Lemma readonly_verify version generated_dir : readonly (verify version generated_dir).
Proof.
  unfold verify. apply readonly_bind; [auto with readonly|]. intros info_exists.
  apply readonly_bind.
  { destruct info_exists; auto with readonly. }
  intros [|]; [|auto with readonly].
  repeat (apply readonly_bind; [auto using readonly_load with readonly|intros ?]).
  auto with readonly.
Qed.

(** What [verify] does once both existence checks have passed. *)
Lemma verify_checked version generated_dir w :
  is_Some (stat (join generated_dir INFO) w) ->
  is_Some (stat (join generated_dir SCHEMAS) w) ->
  verify version generated_dir w =
    bind (read_bytes (join generated_dir ORM)) (fun orm_data =>
      bind (read_bytes (join generated_dir SCHEMAS)) (fun schema_data =>
        bind (load (join generated_dir INFO)) (fun info =>
          lift (info_matches info version
                  (sha1_hexdigest schema_data) (sha1_hexdigest orm_data))))) w.
Proof.
  intros Hi Hs. unfold verify. unfold bind at 1. unfold path_exists at 1.
  rewrite bool_decide_eq_true_2 by exact Hi.
  unfold bind at 1. unfold path_exists at 1.
  rewrite bool_decide_eq_true_2 by exact Hs. reflexivity.
Qed.

Lemma read_bytes_file name w content :
  stat name w = Some (File content) -> read_bytes name w = (Ok content, w).
Proof. intros H. unfold read_bytes. now rewrite H. Qed.

Lemma load_file name w content :
  stat name w = Some (File content) ->
  load name w = (bind_result (text_decode content) json_loads, w).
Proof.
  intros H. unfold load. rewrite (bind_ok _ _ _ _ _ (read_bytes_file _ _ _ H)).
  unfold bind, lift. destruct (text_decode content); reflexivity.
Qed.

(** With the three files in place, [verify] returns what line 53 computes. *)
Lemma verify_files version generated_dir w info_data schema_data orm_data :
  stat (join generated_dir INFO) w = Some (File info_data) ->
  stat (join generated_dir SCHEMAS) w = Some (File schema_data) ->
  stat (join generated_dir ORM) w = Some (File orm_data) ->
  verify version generated_dir w =
    (bind_result (bind_result (text_decode info_data) json_loads)
       (fun info => info_matches info version
                      (sha1_hexdigest schema_data) (sha1_hexdigest orm_data)), w).
Proof.
  intros Hi Hs Ho. rewrite verify_checked by (rewrite ?Hi, ?Hs; eauto).
  rewrite (bind_ok _ _ _ _ _ (read_bytes_file _ _ _ Ho)).
  rewrite (bind_ok _ _ _ _ _ (read_bytes_file _ _ _ Hs)).
  unfold bind. rewrite (load_file _ _ _ Hi).
  destruct (bind_result (text_decode info_data) json_loads); reflexivity.
Qed.

Lemma eq_str_true value s : eq_str value s = true <-> value = JStr s.
Proof.
  destruct value; simpl; try (split; [discriminate|congruence]).
  rewrite String.eqb_eq. split; congruence.
Qed.

End Verify.

Section VerifyClaims.

Context {R : Runtime}.

(** C5. When [info.json] or [schema.py] does not exist in the output
    directory (as in a directory that was never generated into),
    [verify] returns [False] and raises nothing. *)
Theorem verify_not_generated version generated_dir w :
  stat (join generated_dir INFO) w = None \/ stat (join generated_dir SCHEMAS) w = None ->
  verify version generated_dir w = (Ok false, w).
Proof.
  intros H. unfold verify, bind, path_exists.
  destruct (stat (join generated_dir INFO) w) as [ni|] eqn:Hi.
  - destruct H as [H|H]; [discriminate|].
    rewrite bool_decide_eq_true_2 by eauto. rewrite H.
    rewrite bool_decide_eq_false_2 by (intros [? ?]; discriminate). reflexivity.
  - rewrite bool_decide_eq_false_2 by (intros [? ?]; discriminate). reflexivity.
Qed.

(** C4. When [info.json] and [schema.py] exist and [orm.py] does not,
    [verify] does not return [False]: opening [orm.py] raises
    [FileNotFoundError]. *)
Theorem verify_orm_missing version generated_dir w :
  is_Some (stat (join generated_dir INFO) w) ->
  is_Some (stat (join generated_dir SCHEMAS) w) ->
  stat (join generated_dir ORM) w = None ->
  verify version generated_dir w = (Raise FileNotFoundError, w).
Proof.
  intros Hi Hs Ho. rewrite verify_checked by assumption.
  apply bind_raise. unfold read_bytes. now rewrite Ho.
Qed.

(** C2. When the three files exist and the metadata parses as a JSON
    object that has the keys [version], [schema_hash] and [orm_hash],
    [verify] returns a boolean, and it is [True] exactly when the
    recorded version is the supplied one and the two recorded hashes
    are the digests of the bytes of [schema.py] and of [orm.py]. *)
Theorem verify_true_iff version generated_dir w info_data schema_data orm_data
    members recorded_version recorded_schema recorded_orm :
  stat (join generated_dir INFO) w = Some (File info_data) ->
  stat (join generated_dir SCHEMAS) w = Some (File schema_data) ->
  stat (join generated_dir ORM) w = Some (File orm_data) ->
  bind_result (text_decode info_data) json_loads = Ok (JDict members) ->
  dict_get members "version" = Some recorded_version ->
  dict_get members "schema_hash" = Some recorded_schema ->
  dict_get members "orm_hash" = Some recorded_orm ->
  exists in_sync : bool,
    verify version generated_dir w = (Ok in_sync, w) /\
    (in_sync = true <->
       recorded_version = JStr version /\
       recorded_schema = JStr (sha1_hexdigest schema_data) /\
       recorded_orm = JStr (sha1_hexdigest orm_data)).
Proof.
  intros Hi Hs Ho Hparse Hv Hsh Hoh.
  rewrite (verify_files _ _ _ _ _ _ Hi Hs Ho), Hparse. simpl.
  unfold info_matches, getitem. rewrite Hv, Hsh, Hoh.
  destruct (eq_str recorded_version version) eqn:E1.
  - destruct (eq_str recorded_schema (sha1_hexdigest schema_data)) eqn:E2.
    + eexists. split; [reflexivity|].
      rewrite <- !eq_str_true, E1, E2. tauto.
    + exists false. split; [reflexivity|].
      rewrite <- !eq_str_true, E2. split; [discriminate|]. intros (_ & ? & _). discriminate.
  - exists false. split; [reflexivity|].
    rewrite <- !eq_str_true, E1. split; [discriminate|]. intros (? & _). discriminate.
Qed.

(** C9. [verify] changes nothing: whatever it returns or raises, the
    file tree, the log of file-system mutations and [sys.stdout] are
    after the call what they were before. *)
Theorem verify_changes_nothing version generated_dir w :
  files (snd (verify version generated_dir w)) = files w /\
  fs_log (snd (verify version generated_dir w)) = fs_log w /\
  snd (verify version generated_dir w) = w.
Proof. now rewrite readonly_verify. Qed.

(** C6, amended. With [info.json] and [schema.py] in place, [verify]
    raises when the metadata is not parseable, when [version] cannot be
    looked up, when the recorded version is the supplied one and
    [schema_hash] cannot be looked up, or when version and schema hash
    both agree and [orm_hash] cannot be looked up. *)
Theorem verify_fatal_metadata version generated_dir w info_data schema_data :
  stat (join generated_dir INFO) w = Some (File info_data) ->
  stat (join generated_dir SCHEMAS) w = Some (File schema_data) ->
  fatal_metadata version (sha1_hexdigest schema_data)
    (bind_result (text_decode info_data) json_loads) ->
  raises (fst (verify version generated_dir w)).
Proof.
  intros Hi Hs Hfatal.
  rewrite verify_checked by (rewrite ?Hi, ?Hs; eauto).
  unfold bind at 1. unfold read_bytes at 1.
  destruct (stat (join generated_dir ORM) w) as [[orm_data|]|];
    [|eexists; reflexivity|eexists; reflexivity].
  simpl. rewrite (bind_ok _ _ _ _ _ (read_bytes_file _ _ _ Hs)).
  unfold bind. rewrite (load_file _ _ _ Hi).
  destruct Hfatal as [e He|info Hp [e He]|info Hp Hv [e He]|info Hp Hv Hsh [e He]];
    rewrite ?He, ?Hp; simpl.
  - now exists e.
  - unfold info_matches. rewrite He. now exists e.
  - unfold info_matches. rewrite Hv, He. simpl. rewrite String.eqb_refl. now exists e.
  - unfold info_matches. rewrite Hv, Hsh, He. simpl. rewrite !String.eqb_refl. now exists e.
Qed.

End VerifyClaims.

(** * The file tree *)

Section FileTree.

Lemma dirs_added_refl w : dirs_added w w.
Proof.
  split; [reflexivity| |now left].
  exists []. now rewrite app_nil_r.
Qed.

Lemma dirs_added_trans w1 w2 w3 : dirs_added w1 w2 -> dirs_added w2 w3 -> dirs_added w1 w3.
Proof.
  intros [Hs1 (l1 & Hl1 & Hm1) Hf1] [Hs2 (l2 & Hl2 & Hm2) Hf2]. split.
  - congruence.
  - exists (l1 ++ l2). split; [now rewrite Hl2, Hl1, app_assoc|].
    now apply Forall_app.
  - intros q. destruct (Hf1 q) as [E1|[E1 E1']], (Hf2 q) as [E2|[E2 E2']].
    + left. congruence.
    + right. split; congruence.
    + right. split; congruence.
    + congruence.
Qed.

Lemma dirs_added_keeps_dir w w' p :
  dirs_added w w' -> node_at (files w) p = Some Dir -> node_at (files w') p = Some Dir.
Proof.
  intros [_ _ Hf]. unfold node_at. destruct (bool_decide _); [trivial|].
  destruct (Hf p) as [E|[E E']]; congruence.
Qed.

Lemma mkdir_step_spec target p w r w' :
  mkdir_step target p w = (r, w') ->
  dirs_added w w' /\
  (forall q, q <> p -> files w' !! q = files w !! q) /\
  (r = Ok tt -> node_at (files w') p = Some Dir).
Proof.
  unfold mkdir_step. destruct (node_at (files w) p) as [[c|]|] eqn:E; intros H;
    inversion H; subst; clear H.
  - split; [apply dirs_added_refl|]. split; [reflexivity|discriminate].
  - split; [apply dirs_added_refl|]. split; [reflexivity|trivial].
  - assert (Hnone : files w !! p = None).
    { unfold node_at in E. destruct (bool_decide _); [discriminate|exact E]. }
    split; [|split].
    + split; simpl; [reflexivity|exists [Mkdir p]; split; [reflexivity|repeat constructor]|].
      intros q. destruct (decide (p = q)) as [<-|Hne].
      * right. now rewrite lookup_insert_eq.
      * left. now rewrite lookup_insert_ne.
    + intros q Hq. simpl. now rewrite lookup_insert_ne.
    + intros _. unfold node_at. simpl. rewrite lookup_insert_eq.
      now destruct (bool_decide _).
Qed.

Lemma mkdir_all_spec target todo w r w' :
  mkdir_all target todo w = (r, w') ->
  dirs_added w w' /\
  (forall q, q ∉ todo -> files w' !! q = files w !! q) /\
  (r = Ok tt -> forall p, p ∈ todo -> node_at (files w') p = Some Dir).
Proof.
  revert w. induction todo as [|p todo IH]; intros w; simpl.
  - intros H. inversion H; subst. split; [apply dirs_added_refl|].
    split; [reflexivity|]. intros _ p Hp. inversion Hp.
  - unfold bind. destruct (mkdir_step target p w) as [[[]|e] w1] eqn:Hstep.
    + intros Hrest. destruct (mkdir_step_spec _ _ _ _ _ Hstep) as (Hd1 & Ho1 & Hp1).
      destruct (IH _ Hrest) as (Hd2 & Ho2 & Hp2). split; [|split].
      * eapply dirs_added_trans; eassumption.
      * intros q Hq. rewrite not_elem_of_cons in Hq. destruct Hq as [Hqp Hq].
        rewrite Ho2 by exact Hq. now apply Ho1.
      * intros Hr q Hq. apply elem_of_cons in Hq. destruct Hq as [->|Hq].
        -- eapply dirs_added_keeps_dir; [exact Hd2|]. now apply Hp1.
        -- now apply Hp2.
    + intros H. inversion H; subst.
      destruct (mkdir_step_spec _ _ _ _ _ Hstep) as (Hd1 & Ho1 & _).
      split; [exact Hd1|]. split; [|discriminate].
      intros q Hq. rewrite not_elem_of_cons in Hq. now apply Ho1.
Qed.

(** [makedirs] adds directories, on the way to its target only, and on
    success the target is a directory. *)
Lemma makedirs_spec name w r w' :
  makedirs name w = (r, w') ->
  dirs_added w w' /\
  (forall q, q ∉ prefixes (resolve name) -> files w' !! q = files w !! q) /\
  (r = Ok tt -> node_at (files w') (resolve name) = Some Dir).
Proof.
  unfold makedirs. destruct (is_empty name).
  - intros H. inversion H; subst. split; [apply dirs_added_refl|].
    split; [reflexivity|discriminate].
  - intros H. destruct (mkdir_all_spec _ _ _ _ _ H) as (Hd & Ho & Hp).
    split; [exact Hd|]. split; [exact Ho|]. intros Hr.
    destruct (resolve name) as [|x p] eqn:E; [reflexivity|].
    apply Hp; [exact Hr|]. apply prefixes_last. discriminate.
Qed.

(** The file at [generated_dir/name], for one of the three file names. *)
Lemma stat_child generated_dir n w :
  plain_name n ->
  stat (join generated_dir n) w = files w !! (resolve generated_dir ++ [n]).
Proof.
  intros Hn. unfold stat. rewrite join_nonempty by exact Hn.
  rewrite resolve_join by exact Hn.
  apply node_at_child. now apply plain_name_not_root.
Qed.

Lemma parent_child (p : path) n : parent (p ++ [n]) = p.
Proof. unfold parent. apply removelast_last. Qed.

End FileTree.

Section Writing.

Context {R : Runtime}.

(** A successful [with open(name, 'w') as file: file.write(s)]. *)
Lemma write_text_ok_inv name s w w' :
  write_text name s w = (Ok tt, w') ->
  exists data,
    text_encode s = Ok data /\
    w' = World (<[resolve name := File data]> (files w)) (sys_stdout w)
           (fs_log w ++ [Truncate (resolve name); WriteBytes (resolve name) data]).
Proof.
  unfold write_text. intros H. apply bind_ok_inv in H. destruct H as ([] & w1 & Hopen & Hwrite).
  unfold open_w in Hopen.
  assert (Hw1 : w1 = set_files (<[resolve name := File []]> (files w)) (Truncate (resolve name)) w).
  { destruct (stat name w) as [[c|]|]; try discriminate;
      (destruct (is_empty name); [discriminate|]);
      destruct (node_at (files w) (parent (resolve name))) as [[c'|]|]; try discriminate;
      now inversion Hopen. }
  subst w1. unfold file_write in Hwrite.
  destruct (text_encode s) as [data|e]; [|discriminate].
  exists data. split; [reflexivity|]. inversion Hwrite. unfold set_files. simpl.
  rewrite insert_insert_eq. now rewrite <- app_assoc.
Qed.

(** Below an existing directory, and unless the target is a directory
    itself, the write goes through. *)
Lemma write_text_child generated_dir n s w data :
  plain_name n ->
  node_at (files w) (resolve generated_dir) = Some Dir ->
  files w !! (resolve generated_dir ++ [n]) <> Some Dir ->
  text_encode s = Ok data ->
  write_text (join generated_dir n) s w =
    (Ok tt, World (<[resolve generated_dir ++ [n] := File data]> (files w)) (sys_stdout w)
              (fs_log w ++ [Truncate (resolve generated_dir ++ [n]);
                            WriteBytes (resolve generated_dir ++ [n]) data])).
Proof.
  intros Hn Hdir Hnode Henc. unfold write_text, bind, open_w.
  rewrite stat_child by exact Hn. rewrite join_nonempty by exact Hn.
  rewrite resolve_join by exact Hn. rewrite parent_child, Hdir.
  destruct (files w !! (resolve generated_dir ++ [n])) as [[c|]|] eqn:E; try congruence;
    unfold file_write; rewrite Henc, resolve_join by exact Hn; unfold set_files; simpl;
    rewrite insert_insert_eq, <- app_assoc; reflexivity.
Qed.

End Writing.

(** * The model generator *)

Section Generate.

Context {R : Runtime} {C : Collaborators}.

Lemma bind_lift_ok {A B} (r : result A) (k : A -> M B) w a :
  r = Ok a -> bind (lift r) k w = k a w.
Proof. intros ->. reflexivity. Qed.

Lemma bind_lift_raise {A B} (r : result A) (k : A -> M B) w e :
  r = Raise e -> bind (lift r) k w = (Raise e, w).
Proof. intros ->. reflexivity. Qed.

Lemma PyDBML_path_eq dbml_path w :
  PyDBML_path dbml_path w =
    (bind_result (fst (read_node (node_at (files w) (resolve dbml_path)) w)) PyDBML, w).
Proof.
  unfold PyDBML_path, bind, lift.
  destruct (node_at (files w) (resolve dbml_path)) as [[c|]|]; reflexivity.
Qed.

Lemma read_node_fst found w1 w2 : fst (read_node found w1) = fst (read_node found w2).
Proof. destruct found as [[c|]|]; reflexivity. Qed.

Lemma get_dbml_version_eq dbml_path w :
  get_dbml_version dbml_path w = (version_in (files w) dbml_path, w).
Proof.
  unfold version_in, get_dbml_version, bind. rewrite !PyDBML_path_eq. simpl.
  rewrite (read_node_fst _ w (World (files w) OriginalStdout [])).
  destruct (bind_result _ PyDBML); reflexivity.
Qed.

(** The version read depends on the schema source only. *)
Lemma version_in_agree fs1 fs2 dbml_path :
  node_at fs1 (resolve dbml_path) = node_at fs2 (resolve dbml_path) ->
  version_in fs1 dbml_path = version_in fs2 dbml_path.
Proof.
  intros H. unfold version_in, get_dbml_version, bind. rewrite !PyDBML_path_eq. simpl.
  rewrite H.
  rewrite (read_node_fst _ (World fs1 OriginalStdout []) (World fs2 OriginalStdout [])).
  destruct (bind_result _ PyDBML); reflexivity.
Qed.

Ltac next_step H a w Hm :=
  apply bind_ok_inv in H; destruct H as (a & w & Hm & H); cbv beta in H.

Ltac lifted Hm := apply lift_ok_inv in Hm; destruct Hm as [Hm ->].

(** A successful run, step by step. *)
Lemma generate_models_ok_inv dbml_path generated_dir w w' :
  generate_models dbml_path generated_dir w = (Ok tt, w') ->
  exists w1 ddl schema_content orm_content version schema_data orm_data info_data,
    makedirs generated_dir w = (Ok tt, w1) /\
    ddl_of dbml_path w1 ddl /\
    schema_of ddl schema_content /\
    orm_of ddl orm_content /\
    text_encode schema_content = Ok schema_data /\
    text_encode orm_content = Ok orm_data /\
    version_in
      (<[(resolve generated_dir ++ [ORM]) := File orm_data]>
         (<[(resolve generated_dir ++ [SCHEMAS]) := File schema_data]> (files w1)))
      dbml_path = Ok version /\
    text_encode
      (json_dumps (info_record version (sha1_hexdigest (str_encode schema_content))
                     (sha1_hexdigest (str_encode orm_content)))) = Ok info_data /\
    w' = World
           (<[(resolve generated_dir ++ [INFO]) := File info_data]>
              (<[(resolve generated_dir ++ [ORM]) := File orm_data]>
                 (<[(resolve generated_dir ++ [SCHEMAS]) := File schema_data]> (files w1))))
           (sys_stdout w1)
           (fs_log w1 ++
              [Truncate ((resolve generated_dir ++ [SCHEMAS]));
               WriteBytes ((resolve generated_dir ++ [SCHEMAS])) schema_data;
               Truncate ((resolve generated_dir ++ [ORM]));
               WriteBytes ((resolve generated_dir ++ [ORM])) orm_data;
               Truncate ((resolve generated_dir ++ [INFO]));
               WriteBytes ((resolve generated_dir ++ [INFO])) info_data]).
Proof.
  unfold generate_models. intros H.
  rewrite <- (resolve_join generated_dir SCHEMAS plain_SCHEMAS).
  rewrite <- (resolve_join generated_dir ORM plain_ORM).
  rewrite <- (resolve_join generated_dir INFO plain_INFO).
  next_step H u1 w1 Hmk. destruct u1.
  next_step H dbml w2 Hparse.
  assert (w2 = w1) as -> by (pose proof (readonly_PyDBML_path dbml_path w1) as Hr;
                              now rewrite Hparse in Hr).
  next_step H sql w3 Hsql. lifted Hsql.
  next_step H ddl w4 Hddl. lifted Hddl.
  next_step H visible w5 Hvis. inversion Hvis; subst visible w5; clear Hvis.
  next_step H u2 w6 Hset. inversion Hset; subst u2 w6; clear Hset.
  next_step H schemas w7 Hsch. lifted Hsch.
  next_step H scode w8 Hscode. lifted Hscode.
  next_step H schema_content w9 Hsc. lifted Hsc.
  next_step H orm w10 Horm. lifted Horm.
  next_step H ocode w11 Hocode. lifted Hocode.
  next_step H orm_content w12 Hoc. lifted Hoc.
  next_step H u3 w13 Hback. inversion Hback; subst u3 w13; clear Hback.
  next_step H u4 w14 Hws. destruct u4.
  apply write_text_ok_inv in Hws. destruct Hws as (schema_data & Hsd & ->).
  next_step H u5 w15 Hwo. destruct u5.
  apply write_text_ok_inv in Hwo. destruct Hwo as (orm_data & Hod & ->).
  next_step H version w16 Hver. rewrite get_dbml_version_eq in Hver.
  inversion Hver as [[Hversion Hw16]]. subst w16. clear Hver.
  apply (write_text_ok_inv (join generated_dir INFO)) in H.
  destruct H as (info_data & Hid & ->).
  exists w1, ddl, schema_content, orm_content, version, schema_data, orm_data, info_data.
  simpl in *. repeat split; try assumption.
  - now exists dbml, sql.
  - now exists schemas, scode.
  - now exists orm, ocode.
  - unfold with_stdout. simpl. now rewrite <- !app_assoc.
Qed.

(** A run that fails before the redirection leaves [makedirs]'s world. *)
Lemma generate_models_fails_early dbml_path generated_dir w w1 e :
  makedirs generated_dir w = (Ok tt, w1) ->
  fails_before_redirect dbml_path w1 e ->
  generate_models dbml_path generated_dir w = (Raise e, w1).
Proof.
  intros Hmk Hfail. unfold generate_models. rewrite (bind_ok _ _ _ _ _ Hmk).
  destruct Hfail as [Hp|dbml Hp Hs|dbml sql Hp Hs Hd].
  - now rewrite (bind_raise _ _ _ _ _ Hp).
  - rewrite (bind_ok _ _ _ _ _ Hp). now rewrite (bind_lift_raise _ _ _ _ Hs).
  - rewrite (bind_ok _ _ _ _ _ Hp), (bind_lift_ok _ _ _ _ Hs).
    now rewrite (bind_lift_raise _ _ _ _ Hd).
Qed.

(** A run that fails in a code-generation step changes [sys.stdout] and
    nothing else. *)
Lemma generate_models_fails_redirected dbml_path generated_dir w w1 e :
  makedirs generated_dir w = (Ok tt, w1) ->
  fails_while_redirected dbml_path w1 e ->
  generate_models dbml_path generated_dir w =
    (Raise e, with_stdout (FileObject devnull) w1).
Proof.
  intros Hmk (ddl & (dbml & sql & Hp & Hs & Hd) & Hfail).
  unfold generate_models. rewrite (bind_ok _ _ _ _ _ Hmk).
  rewrite (bind_ok _ _ _ _ _ Hp), (bind_lift_ok _ _ _ _ Hs), (bind_lift_ok _ _ _ _ Hd).
  unfold bind at 1. unfold get_stdout at 1. unfold bind at 1. unfold set_stdout at 1.
  destruct Hfail as [Hschema|(sc & (schemas & scode & H1 & H2 & H3) & Horm)].
  - destruct Hschema as [H1|schemas H1 H2|schemas scode H1 H2 H3].
    + now rewrite (bind_lift_raise _ _ _ _ H1).
    + rewrite (bind_lift_ok _ _ _ _ H1). now rewrite (bind_lift_raise _ _ _ _ H2).
    + rewrite (bind_lift_ok _ _ _ _ H1), (bind_lift_ok _ _ _ _ H2).
      now rewrite (bind_lift_raise _ _ _ _ H3).
  - rewrite (bind_lift_ok _ _ _ _ H1), (bind_lift_ok _ _ _ _ H2), (bind_lift_ok _ _ _ _ H3).
    destruct Horm as [H4|orm H4 H5|orm ocode H4 H5 H6].
    + now rewrite (bind_lift_raise _ _ _ _ H4).
    + rewrite (bind_lift_ok _ _ _ _ H4). now rewrite (bind_lift_raise _ _ _ _ H5).
    + rewrite (bind_lift_ok _ _ _ _ H4), (bind_lift_ok _ _ _ _ H5).
      now rewrite (bind_lift_raise _ _ _ _ H6).
Qed.

(** A run that fails before line 86 raises that error in a world that
    has the file tree and the log that [makedirs] left. *)
Lemma generate_models_fails_before_writing dbml_path generated_dir w w1 e :
  makedirs generated_dir w = (Ok tt, w1) ->
  fails_before_writing dbml_path w1 e ->
  exists w',
    generate_models dbml_path generated_dir w = (Raise e, w') /\
    files w' = files w1 /\ fs_log w' = fs_log w1.
Proof.
  intros Hmk [Hearly|Hred].
  - exists w1. now rewrite (generate_models_fails_early _ _ _ _ _ Hmk Hearly).
  - eexists. now rewrite (generate_models_fails_redirected _ _ _ _ _ Hmk Hred).
Qed.

Lemma bind_inv {A B} (m : M A) (k : A -> M B) w r w' :
  bind m k w = (r, w') ->
  (exists e, m w = (Raise e, w') /\ r = Raise e) \/
  (exists a w1, m w = (Ok a, w1) /\ k a w1 = (r, w')).
Proof.
  unfold bind. destruct (m w) as [[a|e] w1]; intros H.
  - right. now exists a, w1.
  - left. exists e. now inversion H.
Qed.

Lemma write_text_stdout name s w r w' :
  write_text name s w = (r, w') -> sys_stdout w' = sys_stdout w.
Proof.
  unfold write_text, bind, open_w, file_write.
  destruct (stat name w) as [[c|]|]; destruct (is_empty name);
    try (intros H; now inversion H);
    destruct (node_at (files w) (parent (resolve name))) as [[c'|]|];
    try (intros H; now inversion H);
    destruct (text_encode s); intros H; now inversion H.
Qed.

Ltac lifted_step H :=
  let e := fresh "e" in let a := fresh "a" in let w := fresh "w" in
  let H1 := fresh "H" in
  apply bind_inv in H;
  destruct H as [(e & H1 & ->)|(a & w & H1 & H)];
  [inversion H1; subst | inversion H1; subst; clear H1; cbv beta in H].

(** Where a run leaves [sys.stdout]: restored, or, when the run raised,
    still bound to the null device. *)
Lemma generate_models_stdout dbml_path generated_dir w r w' :
  generate_models dbml_path generated_dir w = (r, w') ->
  sys_stdout w' = sys_stdout w \/ (sys_stdout w' = FileObject devnull /\ raises r).
Proof.
  unfold generate_models. intros H.
  apply bind_inv in H. destruct H as [(e & Hmk & ->)|([] & w1 & Hmk & H)].
  { left. now destruct (makedirs_spec _ _ _ _ Hmk) as ([? _ _] & _). }
  destruct (makedirs_spec _ _ _ _ Hmk) as ([Hout _ _] & _). rewrite <- Hout. clear Hmk Hout w.
  apply bind_inv in H. destruct H as [(e & Hp & ->)|(dbml & w2 & Hp & H)];
    pose proof (readonly_PyDBML_path dbml_path w1) as Hro; rewrite Hp in Hro;
    simpl in Hro; subst; [now left|].
  lifted_step H; [now left|]. lifted_step H; [now left|].
  lifted_step H. lifted_step H.
  assert (Hdev : forall e w0, w' = with_stdout (FileObject devnull) w0 ->
            sys_stdout w' = sys_stdout w0 \/
            (sys_stdout w' = FileObject devnull /\ raises (@Raise unit e))).
  { intros e w0 ->. right. split; [reflexivity|now exists e]. }
  do 6 (lifted_step H; [now eapply Hdev|]). clear Hdev.
  lifted_step H. cbv beta in H.
  set (w2 := with_stdout (sys_stdout w) (with_stdout (FileObject devnull) w)) in *.
  change (sys_stdout w) with (sys_stdout w2).
  apply bind_inv in H. destruct H as [(e & Hw & ->)|([] & w3 & Hw & H)];
    apply write_text_stdout in Hw; [now left|]. rewrite <- Hw. clear Hw.
  apply bind_inv in H. destruct H as [(e & Hw & ->)|([] & w4 & Hw & H)];
    apply write_text_stdout in Hw; [now left|]. rewrite <- Hw. clear Hw.
  apply bind_inv in H. destruct H as [(e & Hv & ->)|(version & w5 & Hv & H)];
    rewrite get_dbml_version_eq in Hv; inversion Hv; subst; [now left|].
  apply (write_text_stdout (join generated_dir INFO)) in H. now left.
Qed.

End Generate.

Section GenerateClaims.

Context {R : Runtime} {C : Collaborators}.

Lemma output_keys_distinct (p : path) :
  p ++ [SCHEMAS] <> p ++ [ORM] /\ p ++ [SCHEMAS] <> p ++ [INFO] /\ p ++ [ORM] <> p ++ [INFO].
Proof. repeat split; intros H; apply app_inv_head in H; discriminate H. Qed.

(** The three files of a fresh output directory. *)
Lemma fresh_files (p : path) (fs : gmap path node) schema_data orm_data info_data :
  let tree := <[p ++ [INFO] := File info_data]>
                (<[p ++ [ORM] := File orm_data]> (<[p ++ [SCHEMAS] := File schema_data]> fs)) in
  tree !! (p ++ [INFO]) = Some (File info_data) /\
  tree !! (p ++ [SCHEMAS]) = Some (File schema_data) /\
  tree !! (p ++ [ORM]) = Some (File orm_data).
Proof.
  destruct (output_keys_distinct p) as (H1 & H2 & H3). simpl. repeat split.
  - apply lookup_insert_eq.
  - rewrite lookup_insert_ne by congruence. rewrite lookup_insert_ne by congruence.
    apply lookup_insert_eq.
  - rewrite lookup_insert_ne by congruence. apply lookup_insert_eq.
Qed.

(** What line 53 computes on the metadata that generation records. *)
Lemma info_matches_record version schema_hash orm_hash v s o :
  info_matches (info_record version schema_hash orm_hash) v s o =
    Ok (String.eqb version v && (String.eqb schema_hash s && String.eqb orm_hash o)).
Proof.
  unfold info_matches, info_record. simpl.
  destruct (String.eqb version v); [|reflexivity].
  destruct (String.eqb schema_hash s); reflexivity.
Qed.

(** X18. On a runtime whose text layer writes UTF-8 unchanged, after a
    successful [generate_models], and with the schema source left as it
    was, [verify] called with the version that [get_dbml_version] reads
    from that source returns [True]: the hashes recorded are those of
    [content.encode()], the hashes compared are those of the bytes in
    the files, and on such a runtime the two are the same bytes. *)
Theorem generate_then_verify `{!Utf8Text R} dbml_path generated_dir w w' version :
  generate_models dbml_path generated_dir w = (Ok tt, w') ->
  node_at (files w') (resolve dbml_path) = node_at (files w) (resolve dbml_path) ->
  get_dbml_version dbml_path w' = (Ok version, w') ->
  verify version generated_dir w' = (Ok true, w').
Proof.
  intros Hgen Hsame Hver.
  apply generate_models_ok_inv in Hgen.
  destruct Hgen as (w1 & ddl & sc & oc & v & sd & od & id & Hmk & _ & _ & _ &
                    Hsd & Hod & Hv & Hid & Hw').
  rewrite text_encode_utf8 in Hsd, Hod, Hid.
  inversion Hsd; inversion Hod; inversion Hid; subst sd od id. clear Hsd Hod Hid.
  set (p := resolve generated_dir) in *.
  destruct (makedirs_spec _ _ _ _ Hmk) as (Hdirs & Hother & _).
  destruct (output_keys_distinct p) as (Hso & Hsi & Hoi).
  pose proof (fresh_files p (files w1) (str_encode sc) (str_encode oc)
                (str_encode (json_dumps (info_record v (sha1_hexdigest (str_encode sc))
                                           (sha1_hexdigest (str_encode oc)))))) as Hfresh.
  simpl in Hfresh. destruct Hfresh as (Hfi & Hfs & Hfo).
  assert (Hfiles : files w' = <[p ++ [INFO] := File (str_encode (json_dumps
            (info_record v (sha1_hexdigest (str_encode sc)) (sha1_hexdigest (str_encode oc)))))]>
            (<[p ++ [ORM] := File (str_encode oc)]>
               (<[p ++ [SCHEMAS] := File (str_encode sc)]> (files w1)))) by now rewrite Hw'.
  (* the version read after the run is the one that was recorded *)
  assert (Hversion : version = v).
  { rewrite get_dbml_version_eq in Hver. inversion Hver as [Hv']. clear Hver.
    assert (E : version_in (files w') dbml_path =
                version_in (<[p ++ [ORM] := File (str_encode oc)]>
                              (<[p ++ [SCHEMAS] := File (str_encode sc)]> (files w1))) dbml_path).
    { apply version_in_agree. unfold node_at in *.
      destruct (bool_decide _); [reflexivity|].
      destruct (decide (resolve dbml_path = p ++ [INFO])) as [E|E].
      - rewrite Hsame, E.
        rewrite lookup_insert_ne by congruence. rewrite lookup_insert_ne by congruence.
        symmetry. apply Hother. apply child_not_prefix.
      - rewrite Hfiles. now rewrite lookup_insert_ne by congruence. }
    rewrite E, Hv in Hv'. now inversion Hv'. }
  subst v.
  rewrite (verify_files version generated_dir w'
             (str_encode (json_dumps (info_record version (sha1_hexdigest (str_encode sc))
                                        (sha1_hexdigest (str_encode oc)))))
             (str_encode sc) (str_encode oc)).
  - rewrite load_dump. simpl. rewrite info_matches_record, !String.eqb_refl. reflexivity.
  - rewrite stat_child by apply plain_INFO. fold p. rewrite Hfiles. exact Hfi.
  - rewrite stat_child by apply plain_SCHEMAS. fold p. rewrite Hfiles. exact Hfs.
  - rewrite stat_child by apply plain_ORM. fold p. rewrite Hfiles. exact Hfo.
Qed.

End GenerateClaims.

Section EditClaims.

Context {R : Runtime} {C : Collaborators}.

(** X19. On a runtime whose text layer writes UTF-8 unchanged, after a
    fresh generation, overwriting [schema.py] or [orm.py] with bytes
    whose digest is not the digest of the bytes the file held, and
    changing nothing else, makes [verify] return [False], whatever
    version is supplied. *)
Theorem edited_file_not_in_sync `{!Utf8Text R} dbml_path generated_dir w w' n old new version :
  generate_models dbml_path generated_dir w = (Ok tt, w') ->
  n = SCHEMAS \/ n = ORM ->
  stat (join generated_dir n) w' = Some (File old) ->
  sha1_hexdigest old <> sha1_hexdigest new ->
  verify version generated_dir (overwrite (join generated_dir n) new w')
  = (Ok false, overwrite (join generated_dir n) new w').
Proof.
  intros Hgen Hn Hold Hdigest.
  apply generate_models_ok_inv in Hgen.
  destruct Hgen as (w1 & ddl & sc & oc & v & sd & od & id & _ & _ & _ & _ &
                    Hsd & Hod & _ & Hid & Hw').
  rewrite text_encode_utf8 in Hsd, Hod, Hid.
  inversion Hsd; inversion Hod; inversion Hid; subst sd od id. clear Hsd Hod Hid.
  set (p := resolve generated_dir) in *.
  destruct (output_keys_distinct p) as (Hso & Hsi & Hoi).
  set (info_data := str_encode (json_dumps (info_record v (sha1_hexdigest (str_encode sc))
                                              (sha1_hexdigest (str_encode oc))))) in *.
  destruct (fresh_files p (files w1) (str_encode sc) (str_encode oc) info_data)
    as (Hfi & Hfs & Hfo).
  assert (Hfiles : files w' = <[p ++ [INFO] := File info_data]>
            (<[p ++ [ORM] := File (str_encode oc)]>
               (<[p ++ [SCHEMAS] := File (str_encode sc)]> (files w1)))) by now rewrite Hw'.
  rewrite <- Hfiles in Hfi, Hfs, Hfo. clear Hfiles Hw'.
  assert (Hplain : plain_name n) by (destruct Hn as [->| ->]; [apply plain_SCHEMAS|apply plain_ORM]).
  rewrite stat_child in Hold by exact Hplain. fold p in Hold.
  set (w'' := overwrite (join generated_dir n) new w').
  assert (Hedited : files w'' = <[p ++ [n] := File new]> (files w')).
  { unfold w'', overwrite. simpl. now rewrite resolve_join by exact Hplain. }
  assert (Hinfo : stat (join generated_dir INFO) w'' = Some (File info_data)).
  { rewrite stat_child by apply plain_INFO. fold p. rewrite Hedited.
    rewrite lookup_insert_ne; [exact Hfi|]. destruct Hn as [->| ->]; congruence. }
  destruct Hn as [->| ->].
  - (* schema.py was edited *)
    assert (old = str_encode sc) by congruence. subst old.
    rewrite (verify_files version generated_dir w'' info_data new (str_encode oc)).
    + unfold info_data. rewrite load_dump. simpl. rewrite info_matches_record.
      assert (E : String.eqb (sha1_hexdigest (str_encode sc)) (sha1_hexdigest new) = false).
      { apply String.eqb_neq. exact Hdigest. }
      rewrite E. now destruct (String.eqb v version).
    + exact Hinfo.
    + rewrite stat_child by apply plain_SCHEMAS. fold p. rewrite Hedited.
      apply lookup_insert_eq.
    + rewrite stat_child by apply plain_ORM. fold p. rewrite Hedited.
      rewrite lookup_insert_ne by congruence. exact Hfo.
  - (* orm.py was edited *)
    assert (old = str_encode oc) by congruence. subst old.
    rewrite (verify_files version generated_dir w'' info_data (str_encode sc) new).
    + unfold info_data. rewrite load_dump. simpl. rewrite info_matches_record.
      assert (E : String.eqb (sha1_hexdigest (str_encode oc)) (sha1_hexdigest new) = false).
      { apply String.eqb_neq. exact Hdigest. }
      rewrite E, !andb_false_r. reflexivity.
    + exact Hinfo.
    + rewrite stat_child by apply plain_SCHEMAS. fold p. rewrite Hedited.
      rewrite lookup_insert_ne by congruence. exact Hfs.
    + rewrite stat_child by apply plain_ORM. fold p. rewrite Hedited.
      apply lookup_insert_eq.
Qed.


End EditClaims.

(** * What a failing run leaves behind *)

(** C7, refuted as stated. No run has written [schema.py] when the ORM
    code-generation step fails: that step comes before the first file
    is opened, so the log of such a run holds no write to [schema.py]. *)
Lemma orm_failure_leaves_no_schema_file :
  ~ (exists (R : Runtime) (C : Collaborators) dbml_path generated_dir
            w w1 ddl schema_content e r w' ops,
       makedirs generated_dir w = (Ok tt, w1) /\
       ddl_of dbml_path w1 ddl /\
       schema_of ddl schema_content /\
       orm_generation_fails ddl e /\
       generate_models dbml_path generated_dir w = (r, w') /\
       fs_log w' = fs_log w ++ ops /\
       Exists (writes_file (resolve (join generated_dir SCHEMAS))) ops).
Proof.
  intros (R & C & dbml_path & generated_dir & w & w1 & ddl & sc & e & r & w' & ops &
          Hmk & Hddl & Hsc & Horm & Hrun & Hlog & Hwritten).
  assert (Hfail : fails_before_writing dbml_path w1 e).
  { right. exists ddl. split; [exact Hddl|]. right. now exists sc. }
  destruct (generate_models_fails_before_writing _ _ _ _ _ Hmk Hfail)
    as (w2 & Hrun2 & _ & Hl).
  rewrite Hrun in Hrun2. inversion Hrun2; subst r w2.
  destruct (makedirs_spec _ _ _ _ Hmk) as ([_ (dirs & Hdirs & Hmkdirs) _] & _ & _).
  rewrite Hl, Hdirs in Hlog. apply app_inv_head in Hlog. subst ops.
  apply Exists_exists in Hwritten. destruct Hwritten as (op & Hin & Hop).
  rewrite Forall_forall in Hmkdirs.
  specialize (Hmkdirs op Hin). destruct op; simpl in *; contradiction.
Qed.

(** * The test doubles are lawful *)

Module DoubleLaws.

Import Double.

Lemma parse_emit c tail : parse_chars (emit c tail) = cons_parsed c (parse_chars tail).
Proof. destruct c as [[] [] [] [] [] [] [] []]; reflexivity. Qed.

Lemma parse_chars_escape s rest :
  parse_chars (escape_onto s (String dquote rest)) = Some (s, rest).
Proof.
  induction s as [|c s IH]; [reflexivity|].
  simpl escape_onto. now rewrite parse_emit, IH.
Qed.

Lemma utf8_decode_char c rest :
  utf8_decode (utf8_char c ++ rest) = cons_char c (utf8_decode rest).
Proof. destruct c as [[] [] [] [] [] [] [] []]; reflexivity. Qed.

Lemma utf8_roundtrip s : utf8_decode (utf8_encode s) = Ok s.
Proof.
  induction s as [|c s IH]; [reflexivity|].
  simpl utf8_encode. now rewrite utf8_decode_char, IH.
Qed.

Lemma unhex_hex x :
  unhex_byte (hex_digit (Byte.to_N x / 16)) (hex_digit (Byte.to_N x mod 16)) = x.
Proof. destruct x; reflexivity. Qed.

Lemma hex_dump_inj a b : hex_dump a = hex_dump b -> a = b.
Proof.
  revert b. induction a as [|x a IH]; intros [|y b]; simpl; try discriminate; [reflexivity|].
  intros H. inversion H as [[H1 H2 H3]]. f_equal; [|now apply IH].
  rewrite <- (unhex_hex x), <- (unhex_hex y). now rewrite H1, H2.
Qed.

(** [loads] reads back the metadata that [dumps] writes. *)
Lemma loads_dumps_info version schema_hash orm_hash :
  loads (dumps (info_record version schema_hash orm_hash))
  = Ok (info_record version schema_hash orm_hash).
Proof.
  unfold loads.
  assert (Hfuel : exists n,
            String.length (dumps (info_record version schema_hash orm_hash)) = 4 + n).
  { unfold dumps, info_record. simpl. eexists. reflexivity. }
  destruct Hfuel as [n ->].
  unfold dumps, info_record. simpl.
  do 3 (rewrite parse_chars_escape; simpl).
  reflexivity.
Qed.

Lemma posix_utf8 : Utf8Text posix.
Proof.
  split; [reflexivity|]. intros v s o.
  change (bind_result (utf8_decode (utf8_encode (dumps (info_record v s o)))) loads
          = Ok (info_record v s o)).
  rewrite utf8_roundtrip. apply loads_dumps_info.
Qed.

End DoubleLaws.

(** * Runs on the test doubles *)

Module Runs.

Import Double DoubleLaws.

#[local] Existing Instance posix.
#[local] Existing Instance toy.

(** Witness of C5: an empty working directory. *)
Lemma verify_not_generated_run :
  (stat (join "out" INFO) (start ∅) = None \/ stat (join "out" SCHEMAS) (start ∅) = None) /\
  verify "1.0.0" "out" (start ∅) = (Ok false, start ∅).
Proof.
  split; [left; reflexivity|].
  apply (verify_not_generated "1.0.0" "out" (start ∅)). left. reflexivity.
Defined.

(** Witness of C4: an output directory that lacks [orm.py]. *)
Lemma verify_orm_missing_run :
  is_Some (stat (join "out" INFO) without_orm) /\
  is_Some (stat (join "out" SCHEMAS) without_orm) /\
  stat (join "out" ORM) without_orm = None /\
  verify "1.0.0" "out" without_orm = (Raise FileNotFoundError, without_orm).
Proof.
  assert (Hi : is_Some (stat (join "out" INFO) without_orm))
    by (exists (File []); vm_compute; reflexivity).
  assert (Hs : is_Some (stat (join "out" SCHEMAS) without_orm))
    by (exists (File []); vm_compute; reflexivity).
  assert (Ho : stat (join "out" ORM) without_orm = None) by (vm_compute; reflexivity).
  refine (conj Hi (conj Hs (conj Ho _))).
  exact (verify_orm_missing "1.0.0" "out" without_orm Hi Hs Ho).
Defined.

(** Witness of C2: an output directory whose metadata matches its files. *)
Lemma verify_true_iff_run :
  stat (join "out" INFO) in_sync_dir = Some (File (utf8_encode (dumps (JDict sample_members)))) /\
  stat (join "out" SCHEMAS) in_sync_dir = Some (File sample_schema) /\
  stat (join "out" ORM) in_sync_dir = Some (File sample_orm) /\
  bind_result (text_decode (utf8_encode (dumps (JDict sample_members)))) json_loads
    = Ok (JDict sample_members) /\
  exists in_sync : bool,
    verify "1.0.0" "out" in_sync_dir = (Ok in_sync, in_sync_dir) /\
    (in_sync = true <->
       JStr "1.0.0" = JStr "1.0.0" /\
       JStr (hex_dump sample_schema) = JStr (sha1_hexdigest sample_schema) /\
       JStr (hex_dump sample_orm) = JStr (sha1_hexdigest sample_orm)).
Proof.
  assert (Hi : stat (join "out" INFO) in_sync_dir
               = Some (File (utf8_encode (dumps (JDict sample_members)))))
    by (vm_compute; reflexivity).
  assert (Hs : stat (join "out" SCHEMAS) in_sync_dir = Some (File sample_schema))
    by (vm_compute; reflexivity).
  assert (Ho : stat (join "out" ORM) in_sync_dir = Some (File sample_orm))
    by (vm_compute; reflexivity).
  assert (Hp : bind_result (text_decode (utf8_encode (dumps (JDict sample_members)))) json_loads
               = Ok (JDict sample_members)) by (vm_compute; reflexivity).
  refine (conj Hi (conj Hs (conj Ho (conj Hp _)))).
  exact (verify_true_iff "1.0.0" "out" in_sync_dir _ _ _ sample_members
           (JStr "1.0.0") (JStr (hex_dump sample_schema)) (JStr (hex_dump sample_orm))
           Hi Hs Ho Hp eq_refl eq_refl eq_refl).
Defined.

(** C6, refuted as stated: the metadata parses and lacks [schema_hash]
    and [orm_hash], the existence checks pass, and [verify], asked
    about another version, returns [False]. *)
Lemma missing_hashes_return_false :
  path_exists (join "out" INFO) version_only_dir = (Ok true, version_only_dir) /\
  path_exists (join "out" SCHEMAS) version_only_dir = (Ok true, version_only_dir) /\
  load (join "out" INFO) version_only_dir = (Ok version_only, version_only_dir) /\
  getitem version_only "schema_hash" = Raise (KeyError "schema_hash") /\
  getitem version_only "orm_hash" = Raise (KeyError "orm_hash") /\
  verify "1.0.0" "out" version_only_dir = (Ok false, version_only_dir).
Proof. repeat split; vm_compute; reflexivity. Qed.

(** Witness of C6 as amended: the metadata is an empty object. *)
Lemma verify_fatal_metadata_run :
  stat (join "out" INFO) no_keys_dir = Some (File (utf8_encode (dumps (JDict [])))) /\
  stat (join "out" SCHEMAS) no_keys_dir = Some (File sample_schema) /\
  fatal_metadata "1.0.0" (sha1_hexdigest sample_schema)
    (bind_result (text_decode (utf8_encode (dumps (JDict [])))) json_loads) /\
  raises (fst (verify "1.0.0" "out" no_keys_dir)).
Proof.
  assert (Hi : stat (join "out" INFO) no_keys_dir = Some (File (utf8_encode (dumps (JDict [])))))
    by (vm_compute; reflexivity).
  assert (Hs : stat (join "out" SCHEMAS) no_keys_dir = Some (File sample_schema))
    by (vm_compute; reflexivity).
  assert (Hf : fatal_metadata "1.0.0" (sha1_hexdigest sample_schema)
                 (bind_result (text_decode (utf8_encode (dumps (JDict [])))) json_loads)).
  { apply (no_version _ _ _ (JDict [])); [vm_compute; reflexivity|].
    exists (KeyError "version"). reflexivity. }
  refine (conj Hi (conj Hs (conj Hf _))).
  exact (verify_fatal_metadata "1.0.0" "out" no_keys_dir _ _ Hi Hs Hf).
Defined.

(** Witness of X18: generation from the good source. *)
Lemma generate_then_verify_run :
  generate_models "schema.dbml" "out" (project good_source) = (Ok tt, fresh) /\
  node_at (files fresh) (resolve "schema.dbml")
    = node_at (files (project good_source)) (resolve "schema.dbml") /\
  get_dbml_version "schema.dbml" fresh = (Ok "1.0.0", fresh) /\
  verify "1.0.0" "out" fresh = (Ok true, fresh).
Proof.
  assert (Hgen : generate_models "schema.dbml" "out" (project good_source) = (Ok tt, fresh))
    by (vm_compute; reflexivity).
  assert (Hsame : node_at (files fresh) (resolve "schema.dbml")
                  = node_at (files (project good_source)) (resolve "schema.dbml"))
    by (vm_compute; reflexivity).
  assert (Hver : get_dbml_version "schema.dbml" fresh = (Ok "1.0.0", fresh))
    by (vm_compute; reflexivity).
  refine (conj Hgen (conj Hsame (conj Hver _))).
  exact (generate_then_verify (Utf8Text0 := posix_utf8)
           "schema.dbml" "out" (project good_source) fresh "1.0.0" Hgen Hsame Hver).
Defined.

(** Witness of X19: after generation from the good source, the last
    byte of [schema.py] is changed. *)
Lemma edited_file_not_in_sync_run :
  generate_models "schema.dbml" "out" (project good_source) = (Ok tt, fresh) /\
  (SCHEMAS = SCHEMAS \/ SCHEMAS = ORM) /\
  stat (join "out" SCHEMAS) fresh = Some (File generated_schema) /\
  sha1_hexdigest generated_schema <> sha1_hexdigest edited_schema /\
  verify "1.0.0" "out" (overwrite (join "out" SCHEMAS) edited_schema fresh)
  = (Ok false, overwrite (join "out" SCHEMAS) edited_schema fresh).
Proof.
  assert (Hgen : generate_models "schema.dbml" "out" (project good_source) = (Ok tt, fresh))
    by (vm_compute; reflexivity).
  assert (Hold : stat (join "out" SCHEMAS) fresh = Some (File generated_schema))
    by (vm_compute; reflexivity).
  assert (Hdigest : sha1_hexdigest generated_schema <> sha1_hexdigest edited_schema)
    by (vm_compute; discriminate).
  refine (conj Hgen (conj (or_introl eq_refl) (conj Hold (conj Hdigest _)))).
  exact (edited_file_not_in_sync (Utf8Text0 := posix_utf8)
           "schema.dbml" "out" (project good_source) fresh SCHEMAS
           generated_schema edited_schema "1.0.0"
           Hgen (or_introl eq_refl) Hold Hdigest).
Defined.



(** C3 at a failing input: the ORM generation raises while standard
    output is redirected, and the error leaves [generate_models] with
    [sys.stdout] still bound to the file object opened on the null
    device. *)
Theorem stdout_left_redirected :
  sys_stdout (project refused_source) = OriginalStdout /\
  fst (generate_models "schema.dbml" "out" (project refused_source)) = Raise refusal /\
  sys_stdout (snd (generate_models "schema.dbml" "out" (project refused_source)))
    = FileObject devnull.
Proof. repeat split; vm_compute; reflexivity. Qed.

(** C7, amended. A failing run can leave a partial artifact set
    behind: here both code generations succeed, [schema.py] is written,
    and writing the ORM file then fails, because a directory has the
    name [orm.py]. The new [schema.py] stays on disk while [orm.py] and
    [info.json] are what they were. Nothing is rolled back: the write
    to [schema.py] is the last operation of the run. *)
Theorem partial_artifacts_without_rollback :
  exists (R : Runtime) (C : Collaborators) dbml_path generated_dir w w' ddl
         schema_content orm_content schema_data,
    ddl_of dbml_path w ddl /\
    schema_of ddl schema_content /\
    orm_of ddl orm_content /\
    text_encode schema_content = Ok schema_data /\
    generate_models dbml_path generated_dir w = (Raise IsADirectoryError, w') /\
    write_text (join generated_dir ORM) orm_content w' = (Raise IsADirectoryError, w') /\
    stat (join generated_dir SCHEMAS) w = None /\
    stat (join generated_dir SCHEMAS) w' = Some (File schema_data) /\
    stat (join generated_dir ORM) w' = stat (join generated_dir ORM) w /\
    stat (join generated_dir INFO) w' = stat (join generated_dir INFO) w /\
    fs_log w' = fs_log w ++ [Truncate (resolve (join generated_dir SCHEMAS));
                              WriteBytes (resolve (join generated_dir SCHEMAS)) schema_data].
Proof.
  exists posix, toy, "schema.dbml", "out", Cases.orm_blocked,
    (snd (generate_models "schema.dbml" "out" Cases.orm_blocked)),
    "CREATE TABLE t", "# schema CREATE TABLE t", "# orm CREATE TABLE t",
    (utf8_encode "# schema CREATE TABLE t").
  refine (conj _ (conj _ (conj _ _))).
  - exists {| toy_note := Some "1.0.0"; toy_sql := "CREATE TABLE t" |}, "CREATE TABLE t".
    refine (conj _ (conj _ _)); vm_compute; reflexivity.
  - exists (JDict [("metadata", JDict []); ("code", JStr "# schema CREATE TABLE t")]),
           (JStr "# schema CREATE TABLE t").
    refine (conj _ (conj _ _)); reflexivity.
  - exists (JDict [("metadata", JDict []); ("code", JStr "# orm CREATE TABLE t")]),
           (JStr "# orm CREATE TABLE t").
    refine (conj _ (conj _ _)); reflexivity.
  - refine (conj _ (conj _ (conj _ (conj _ (conj _ (conj _ (conj _ _)))))));
      vm_compute; reflexivity.
Qed.

End Runs.

(** * Further properties of the sync verifier *)

Section VerifyEdges.

Context {R : Runtime}.

(** X1. [os.path.exists] accepts a directory: when the three paths
    exist and one of them is a directory, the existence checks pass and
    [verify] raises [IsADirectoryError] instead of returning [False]. *)
Theorem verify_directory_in_place version generated_dir w :
  is_Some (stat (join generated_dir INFO) w) ->
  is_Some (stat (join generated_dir SCHEMAS) w) ->
  is_Some (stat (join generated_dir ORM) w) ->
  stat (join generated_dir INFO) w = Some Dir \/
  stat (join generated_dir SCHEMAS) w = Some Dir \/
  stat (join generated_dir ORM) w = Some Dir ->
  verify version generated_dir w = (Raise IsADirectoryError, w).
Proof.
  intros Hi Hs [no Ho] Hdir. rewrite verify_checked by assumption.
  destruct no as [orm_data|].
  2:{ apply bind_raise. unfold read_bytes. now rewrite Ho. }
  rewrite (bind_ok _ _ _ _ _ (read_bytes_file _ _ _ Ho)).
  destruct Hs as [ns Hs]. destruct ns as [schema_data|].
  2:{ apply bind_raise. unfold read_bytes. now rewrite Hs. }
  rewrite (bind_ok _ _ _ _ _ (read_bytes_file _ _ _ Hs)).
  destruct Hdir as [Hd|[Hd|Hd]]; [|congruence|congruence].
  apply bind_raise. unfold load. apply bind_raise. unfold read_bytes. now rewrite Hd.
Qed.

(** X2. With the three files in place and a recorded version that is
    not the supplied one, [verify] returns [False] without looking at
    the hashes: it does so whatever the files hold, and also when the
    hash keys are missing from the metadata. *)
Theorem verify_version_mismatch version generated_dir w
    info_data schema_data orm_data info recorded :
  stat (join generated_dir INFO) w = Some (File info_data) ->
  stat (join generated_dir SCHEMAS) w = Some (File schema_data) ->
  stat (join generated_dir ORM) w = Some (File orm_data) ->
  bind_result (text_decode info_data) json_loads = Ok info ->
  getitem info "version" = Ok recorded ->
  recorded <> JStr version ->
  verify version generated_dir w = (Ok false, w).
Proof.
  intros Hi Hs Ho Hparse Hv Hne.
  rewrite (verify_files _ _ _ _ _ _ Hi Hs Ho), Hparse. simpl.
  unfold info_matches. rewrite Hv.
  destruct (eq_str recorded version) eqn:E; [|reflexivity].
  apply eq_str_true in E. contradiction.
Qed.

(** X3. [verify] returns [True] only for a directory that is in sync:
    the three files are regular files, the metadata parses, and it
    records the supplied version and the digests of the bytes of
    [schema.py] and [orm.py]. *)
Theorem verify_true_only_in_sync version generated_dir w w' :
  verify version generated_dir w = (Ok true, w') ->
  exists info_data schema_data orm_data info,
    stat (join generated_dir INFO) w = Some (File info_data) /\
    stat (join generated_dir SCHEMAS) w = Some (File schema_data) /\
    stat (join generated_dir ORM) w = Some (File orm_data) /\
    bind_result (text_decode info_data) json_loads = Ok info /\
    getitem info "version" = Ok (JStr version) /\
    getitem info "schema_hash" = Ok (JStr (sha1_hexdigest schema_data)) /\
    getitem info "orm_hash" = Ok (JStr (sha1_hexdigest orm_data)).
Proof.
  intros H.
  destruct (stat (join generated_dir INFO) w) as [ni|] eqn:Hi.
  2:{ unfold verify, bind, path_exists in H. rewrite Hi in H.
      rewrite bool_decide_eq_false_2 in H by (intros [? ?]; discriminate). discriminate. }
  destruct (stat (join generated_dir SCHEMAS) w) as [ns|] eqn:Hs.
  2:{ unfold verify, bind, path_exists in H. rewrite Hi in H.
      rewrite bool_decide_eq_true_2 in H by eauto. rewrite Hs in H.
      rewrite bool_decide_eq_false_2 in H by (intros [? ?]; discriminate). discriminate. }
  rewrite verify_checked in H by (rewrite ?Hi, ?Hs; eauto).
  apply bind_ok_inv in H. destruct H as (orm_data & w1 & Ho & H).
  assert (w1 = w) as ->
    by (pose proof (readonly_read_bytes (join generated_dir ORM) w) as Hr; now rewrite Ho in Hr).
  apply bind_ok_inv in H. destruct H as (schema_data & w2 & Hsd & H).
  assert (w2 = w) as ->
    by (pose proof (readonly_read_bytes (join generated_dir SCHEMAS) w) as Hr; now rewrite Hsd in Hr).
  apply bind_ok_inv in H. destruct H as (info & w3 & Hload & H).
  apply lift_ok_inv in H. destruct H as [Hmatch ->].
  unfold read_bytes in Ho, Hsd.
  destruct (stat (join generated_dir ORM) w) as [[od|]|] eqn:Hso; try discriminate.
  rewrite Hs in Hsd. destruct ns as [sd|]; try discriminate.
  inversion Ho; inversion Hsd; subst od sd.
  destruct ni as [info_data|].
  2:{ unfold load, bind, read_bytes in Hload. rewrite Hi in Hload. discriminate. }
  rewrite (load_file _ _ _ Hi) in Hload. inversion Hload as [Hparse].
  exists info_data, schema_data, orm_data, info.
  repeat (split; [reflexivity|]).
  unfold info_matches in Hmatch.
  destruct (getitem info "version") as [rv|] eqn:Ev; [|discriminate].
  destruct (eq_str rv version) eqn:E1; [|discriminate].
  destruct (getitem info "schema_hash") as [rs|] eqn:Es; [|discriminate].
  destruct (eq_str rs (sha1_hexdigest schema_data)) eqn:E2; [|discriminate].
  destruct (getitem info "orm_hash") as [ro|] eqn:Eo; [|discriminate].
  inversion Hmatch as [E3].
  apply eq_str_true in E1, E2, E3. now subst.
Qed.

End VerifyEdges.

(** * Further properties of the model generator *)

Section RunShape.

Context {R : Runtime} {C : Collaborators}.

Lemma world_eta w : World (files w) (sys_stdout w) (fs_log w) = w.
Proof. now destruct w. Qed.

Lemma keeps_bind {A B} (P : world -> world -> Prop) (m : M A) (k : A -> M B) :
  (forall a b c, P a b -> P b c -> P a c) ->
  keeps P m -> (forall a, keeps P (k a)) -> keeps P (bind m k).
Proof.
  intros Htrans Hm Hk w r w' H. apply bind_inv in H.
  destruct H as [(e & H & _)|(a & w1 & H & H')].
  - eapply Hm, H.
  - eapply Htrans; [eapply Hm, H|eapply Hk, H'].
Qed.

Lemma keeps_readonly {A} (P : world -> world -> Prop) (m : M A) :
  (forall w, P w w) -> readonly m -> keeps P m.
Proof. intros Hrefl Hm w r w' H. specialize (Hm w). rewrite H in Hm. simpl in Hm. now subst. Qed.

Lemma others_kept_refl keys w : others_kept keys w w.
Proof. intros q _. now left. Qed.

Lemma others_kept_trans keys w1 w2 w3 :
  others_kept keys w1 w2 -> others_kept keys w2 w3 -> others_kept keys w1 w3.
Proof.
  intros H1 H2 q Hq. destruct (H1 q Hq) as [E1|[E1 E1']], (H2 q Hq) as [E2|[E2 E2']].
  - left. congruence.
  - right. split; congruence.
  - right. split; congruence.
  - congruence.
Qed.

(** The three outcomes of [with open(name, 'w') as file: file.write(s)]:
    the file cannot be opened; it is opened, and left empty when the
    text cannot be encoded; it is written. *)
Lemma write_text_cases name s w r w' :
  write_text name s w = (r, w') ->
  (exists e, r = Raise e /\ w' = w) \/
  (exists e, r = Raise e /\ text_encode s = Raise e /\
     w' = set_files (<[resolve name := File []]> (files w)) (Truncate (resolve name)) w) \/
  (exists data, r = Ok tt /\ text_encode s = Ok data /\
     w' = World (<[resolve name := File data]> (files w)) (sys_stdout w)
            (fs_log w ++ [Truncate (resolve name); WriteBytes (resolve name) data])).
Proof.
  intros H. unfold write_text in H. apply bind_inv in H.
  destruct H as [(e & Hopen & ->)|([] & w1 & Hopen & Hwrite)].
  - left. exists e. split; [reflexivity|]. unfold open_w in Hopen.
    destruct (stat name w) as [[c|]|]; destruct (is_empty name); try (now inversion Hopen);
      destruct (node_at (files w) (parent (resolve name))) as [[c'|]|]; now inversion Hopen.
  - right.
    assert (Hw1 : w1 = set_files (<[resolve name := File []]> (files w))
                         (Truncate (resolve name)) w).
    { unfold open_w in Hopen.
      destruct (stat name w) as [[c|]|]; try discriminate;
        (destruct (is_empty name); [discriminate|]);
        destruct (node_at (files w) (parent (resolve name))) as [[c'|]|]; try discriminate;
        now inversion Hopen. }
    subst w1. unfold file_write in Hwrite. destruct (text_encode s) as [data|e].
    + right. exists data. inversion Hwrite. split; [reflexivity|]. split; [reflexivity|].
      unfold set_files. simpl. now rewrite insert_insert_eq, <- app_assoc.
    + left. exists e. inversion Hwrite. now subst.
Qed.

Lemma write_text_keeps keys name s :
  resolve name ∈ keys -> keeps (others_kept keys) (write_text name s).
Proof.
  intros Hin w r w' H q Hq. left.
  assert (Hne : resolve name <> q) by (intros <-; contradiction).
  destruct (write_text_cases _ _ _ _ _ H) as [(e & _ & ->)|[(e & _ & _ & ->)|(data & _ & _ & ->)]];
    unfold set_files; cbn [files]; [reflexivity| |]; now rewrite lookup_insert_ne.
Qed.

Lemma generate_models_unfold dbml_path generated_dir :
  generate_models dbml_path generated_dir =
  bind (makedirs generated_dir) (fun _ =>
  bind (PyDBML_path dbml_path) (fun dbml =>
  bind (lift (dbml_sql dbml)) (fun sql =>
  bind (lift (patch_ddl sql)) (fun ddl =>
  bind get_stdout (fun visible =>
  bind (set_stdout (FileObject devnull)) (fun _ =>
  bind (lift (create_models ddl Pydantic)) (fun schemas =>
  bind (lift (getitem schemas "code")) (fun schemas_code =>
  bind (lift (patch_schema schemas_code)) (fun schema_content =>
  bind (lift (create_models ddl Sqlalchemy)) (fun orm =>
  bind (lift (getitem orm "code")) (fun orm_code =>
  bind (lift (patch_orm orm_code)) (fun orm_content =>
  bind (set_stdout visible) (fun _ =>
  write_artifacts dbml_path generated_dir schema_content orm_content))))))))))))).
Proof. reflexivity. Qed.

(** A run that reaches line 86 continues as [write_artifacts] in the
    world that [makedirs] left. *)
Lemma generate_models_reaches_writing dbml_path generated_dir w w1 ddl sc oc :
  makedirs generated_dir w = (Ok tt, w1) ->
  ddl_of dbml_path w1 ddl -> schema_of ddl sc -> orm_of ddl oc ->
  generate_models dbml_path generated_dir w = write_artifacts dbml_path generated_dir sc oc w1.
Proof.
  intros Hmk (dbml & sql & Hp & Hs & Hd) (schemas & scode & H1 & H2 & H3)
         (orm & ocode & H4 & H5 & H6).
  rewrite generate_models_unfold. rewrite (bind_ok _ _ _ _ _ Hmk).
  rewrite (bind_ok _ _ _ _ _ Hp), (bind_lift_ok _ _ _ _ Hs), (bind_lift_ok _ _ _ _ Hd).
  unfold bind at 1. unfold get_stdout at 1. unfold bind at 1. unfold set_stdout at 1.
  rewrite (bind_lift_ok _ _ _ _ H1), (bind_lift_ok _ _ _ _ H2), (bind_lift_ok _ _ _ _ H3).
  rewrite (bind_lift_ok _ _ _ _ H4), (bind_lift_ok _ _ _ _ H5), (bind_lift_ok _ _ _ _ H6).
  unfold bind at 1. unfold set_stdout at 1. unfold with_stdout. simpl.
  now rewrite world_eta.
Qed.

(** Every run either fails before line 86, having added directories at
    most, or continues as [write_artifacts]. *)
Lemma generate_models_phases dbml_path generated_dir w r w' :
  generate_models dbml_path generated_dir w = (r, w') ->
  (exists e w1, r = Raise e /\ dirs_added w w1 /\
                files w' = files w1 /\ fs_log w' = fs_log w1) \/
  (exists w1 ddl sc oc,
     makedirs generated_dir w = (Ok tt, w1) /\
     ddl_of dbml_path w1 ddl /\ schema_of ddl sc /\ orm_of ddl oc /\
     write_artifacts dbml_path generated_dir sc oc w1 = (r, w')).
Proof.
  rewrite generate_models_unfold. intros H.
  apply bind_inv in H. destruct H as [(e & Hmk & ->)|([] & w1 & Hmk & H)].
  { left. exists e, w'. destruct (makedirs_spec _ _ _ _ Hmk) as (Hd & _).
    split; [reflexivity|]. split; [exact Hd|]. split; reflexivity. }
  destruct (makedirs_spec _ _ _ _ Hmk) as (Hdirs & _).
  assert (Hstop : forall e s, exists e0 w0, @Raise unit e = Raise e0 /\ dirs_added w w0 /\
            files (with_stdout s w1) = files w0 /\ fs_log (with_stdout s w1) = fs_log w0).
  { intros e s. now exists e, w1. }
  assert (Hstop0 : forall e, exists e0 w0, @Raise unit e = Raise e0 /\ dirs_added w w0 /\
            files w1 = files w0 /\ fs_log w1 = fs_log w0).
  { intros e. now exists e, w1. }
  apply bind_inv in H. destruct H as [(e & Hp & ->)|(dbml & w2 & Hp & H)];
    pose proof (readonly_PyDBML_path dbml_path w1) as Hro; rewrite Hp in Hro;
    simpl in Hro; subst; [left; apply Hstop0|].
  apply bind_inv in H. destruct H as [(e & Hs & ->)|(sql & w3 & Hs & H)];
    apply pair_equal_spec in Hs; destruct Hs as [Hs <-]; [left; apply Hstop0|].
  apply bind_inv in H. destruct H as [(e & Hd & ->)|(ddl & w4 & Hd & H)];
    apply pair_equal_spec in Hd; destruct Hd as [Hd <-]; [left; apply Hstop0|].
  unfold bind at 1 in H. unfold get_stdout at 1 in H.
  unfold bind at 1 in H. unfold set_stdout at 1 in H.
  apply bind_inv in H. destruct H as [(e & H1 & ->)|(schemas & w5 & H1 & H)];
    apply pair_equal_spec in H1; destruct H1 as [H1 <-]; [left; apply Hstop|].
  apply bind_inv in H. destruct H as [(e & H2 & ->)|(scode & w6 & H2 & H)];
    apply pair_equal_spec in H2; destruct H2 as [H2 <-]; [left; apply Hstop|].
  apply bind_inv in H. destruct H as [(e & H3 & ->)|(sc & w7 & H3 & H)];
    apply pair_equal_spec in H3; destruct H3 as [H3 <-]; [left; apply Hstop|].
  apply bind_inv in H. destruct H as [(e & H4 & ->)|(orm & w8 & H4 & H)];
    apply pair_equal_spec in H4; destruct H4 as [H4 <-]; [left; apply Hstop|].
  apply bind_inv in H. destruct H as [(e & H5 & ->)|(ocode & w9 & H5 & H)];
    apply pair_equal_spec in H5; destruct H5 as [H5 <-]; [left; apply Hstop|].
  apply bind_inv in H. destruct H as [(e & H6 & ->)|(oc & w10 & H6 & H)];
    apply pair_equal_spec in H6; destruct H6 as [H6 <-]; [left; apply Hstop|].
  unfold bind at 1 in H. unfold set_stdout at 1 in H. unfold with_stdout in H. simpl in H.
  rewrite world_eta in H.
  right. exists w1, ddl, sc, oc. split; [exact Hmk|]. split; [now exists dbml, sql|].
  split; [now exists schemas, scode|]. split; [now exists orm, ocode|]. exact H.
Qed.

End RunShape.

Section RunInvariants.

Context {R : Runtime} {C : Collaborators}.

(** X4. A run that returns normally has restored [sys.stdout] to the
    stream it found at entry. *)
Theorem stdout_restored_on_return dbml_path generated_dir w w' :
  generate_models dbml_path generated_dir w = (Ok tt, w') ->
  sys_stdout w' = sys_stdout w.
Proof.
  intros H. destruct (generate_models_stdout _ _ _ _ _ H) as [E|[_ [e He]]];
    [exact E|discriminate].
Qed.

Lemma makedirs_keeps keys name : keeps (others_kept keys) (makedirs name).
Proof.
  intros w r w' H q _. now destruct (makedirs_spec _ _ _ _ H) as ([_ _ Hf] & _).
Qed.

Lemma set_stdout_keeps keys s : keeps (others_kept keys) (set_stdout s).
Proof. intros w r w' H q _. left. now inversion H. Qed.

Lemma write_artifacts_keeps dbml_path generated_dir sc oc :
  keeps (others_kept (output_paths generated_dir))
        (write_artifacts dbml_path generated_dir sc oc).
Proof.
  unfold write_artifacts, output_paths.
  apply keeps_bind; [apply others_kept_trans| |intros _].
  { apply write_text_keeps. set_solver. }
  apply keeps_bind; [apply others_kept_trans| |intros _].
  { apply write_text_keeps. set_solver. }
  apply keeps_bind; [apply others_kept_trans| |intros version].
  { apply keeps_readonly; [apply others_kept_refl|apply readonly_get_dbml_version]. }
  apply (write_text_keeps _ (join generated_dir INFO)). set_solver.
Qed.

Lemma generate_models_keeps dbml_path generated_dir :
  keeps (others_kept (output_paths generated_dir)) (generate_models dbml_path generated_dir).
Proof.
  rewrite generate_models_unfold.
  pose proof (others_kept_trans (output_paths generated_dir)) as Htrans.
  pose proof (others_kept_refl (output_paths generated_dir)) as Hrefl.
  apply keeps_bind; [exact Htrans|apply makedirs_keeps|intros _].
  apply keeps_bind; [exact Htrans| |intros dbml].
  { apply keeps_readonly; [exact Hrefl|apply readonly_PyDBML_path]. }
  do 2 (apply keeps_bind; [exact Htrans| |intros ?];
        [apply keeps_readonly; [exact Hrefl|apply readonly_lift]|]).
  apply keeps_bind; [exact Htrans| |intros visible].
  { apply keeps_readonly; [exact Hrefl|]. intros w0. reflexivity. }
  apply keeps_bind; [exact Htrans|apply set_stdout_keeps|intros _].
  do 6 (apply keeps_bind; [exact Htrans| |intros ?];
        [apply keeps_readonly; [exact Hrefl|apply readonly_lift]|]).
  apply keeps_bind; [exact Htrans|apply set_stdout_keeps|intros _].
  apply write_artifacts_keeps.
Qed.

(** X5. Whatever the outcome of a run, [generate_models] changes no
    file other than [schema.py], [orm.py] and [info.json] of the output
    directory: every other path holds what it held, or has become a
    directory that [makedirs] created. The output directory and the
    other path are spelled without [..] and are of the same kind (both
    absolute or both relative), so that different paths are different
    files. *)
Theorem run_keeps_other_files dbml_path generated_dir w r w' :
  generate_models dbml_path generated_dir w = (r, w') ->
  dotless (resolve generated_dir) ->
  forall q, dotless q -> absolute q = absolute (resolve generated_dir) ->
    q ∉ output_paths generated_dir ->
    files w' !! q = files w !! q \/ (files w !! q = None /\ files w' !! q = Some Dir).
Proof.
  intros H _ q _ _. exact (generate_models_keeps dbml_path generated_dir w r w' H q).
Qed.

(** X14. A run never changes the schema source, whatever its outcome:
    when the source exists and is not one of the three output files, it
    holds after the run what it held before, and [get_dbml_version]
    returns (or raises) after the run what it did before. The two
    paths are spelled without [..] and are of the same kind (both
    absolute or both relative), so that the source is an output file
    only when its path is one of the three output paths. *)
Theorem run_keeps_schema_source dbml_path generated_dir w r w' :
  generate_models dbml_path generated_dir w = (r, w') ->
  dotless (resolve dbml_path) ->
  dotless (resolve generated_dir) ->
  absolute (resolve dbml_path) = absolute (resolve generated_dir) ->
  resolve dbml_path ∉ output_paths generated_dir ->
  node_at (files w) (resolve dbml_path) <> None ->
  node_at (files w') (resolve dbml_path) = node_at (files w) (resolve dbml_path) /\
  fst (get_dbml_version dbml_path w') = fst (get_dbml_version dbml_path w).
Proof.
  intros H _ _ _ Hout Hsome.
  assert (Hnode : node_at (files w') (resolve dbml_path)
                  = node_at (files w) (resolve dbml_path)).
  { unfold node_at in *. destruct (bool_decide _); [reflexivity|].
    destruct (generate_models_keeps dbml_path generated_dir w r w' H _ Hout) as [E|[E _]];
      [exact E|contradiction]. }
  split; [exact Hnode|].
  rewrite !get_dbml_version_eq. simpl. now apply version_in_agree.
Qed.

(** The mutations of the lines 86 to 100, in every outcome. *)
Lemma write_artifacts_log dbml_path generated_dir sc oc w r w' :
  write_artifacts dbml_path generated_dir sc oc w = (r, w') ->
  exists ops schema_data orm_data info_data,
    fs_log w' = fs_log w ++ ops /\
    ops `prefix_of` write_ops generated_dir schema_data orm_data info_data /\
    (r = Ok tt <-> ops = write_ops generated_dir schema_data orm_data info_data).
Proof.
  intros H.
  assert (Hshort : forall (e : exn) (n : nat) sd od id (w0 : world),
            n < 6 ->
            fs_log w0 = fs_log w ++ take n (write_ops generated_dir sd od id) ->
            exists ops schema_data orm_data info_data,
              fs_log w0 = fs_log w ++ ops /\
              ops `prefix_of` write_ops generated_dir schema_data orm_data info_data /\
              (@Raise unit e = Ok tt <->
               ops = write_ops generated_dir schema_data orm_data info_data)).
  { intros e n sd od id w0 Hn Hlog.
    exists (take n (write_ops generated_dir sd od id)), sd, od, id.
    split; [exact Hlog|]. split; [apply prefix_take|]. split; [discriminate|].
    intros E. apply (f_equal length) in E. rewrite length_take in E.
    unfold write_ops in E. simpl in E. lia. }
  unfold write_artifacts in H.
  apply bind_inv in H. destruct H as [(e & H1 & ->)|([] & w1 & H1 & H)].
  { destruct (write_text_cases _ _ _ _ _ H1) as [(e' & _ & ->)|[(e' & _ & _ & ->)|(? & ? & _)]];
      [| |discriminate].
    - apply (Hshort e 0 [] [] []); [lia|now rewrite app_nil_r].
    - apply (Hshort e 1 [] [] []); [lia|reflexivity]. }
  destruct (write_text_cases _ _ _ _ _ H1) as [(? & ? & _)|[(? & ? & _)|(sd & _ & _ & ->)]];
    [discriminate|discriminate|]. clear H1.
  apply bind_inv in H. destruct H as [(e & H2 & ->)|([] & w2 & H2 & H)].
  { destruct (write_text_cases _ _ _ _ _ H2) as [(e' & _ & ->)|[(e' & _ & _ & ->)|(? & ? & _)]];
      [| |discriminate].
    - apply (Hshort e 2 sd [] []); [lia|reflexivity].
    - apply (Hshort e 3 sd [] []); [lia|]. unfold set_files. cbn [fs_log take write_ops].
      now rewrite <- app_assoc. }
  destruct (write_text_cases _ _ _ _ _ H2) as [(? & ? & _)|[(? & ? & _)|(od & _ & _ & ->)]];
    [discriminate|discriminate|]. clear H2.
  apply bind_inv in H. destruct H as [(e & H3 & ->)|(version & w3 & H3 & H)];
    rewrite get_dbml_version_eq in H3; inversion H3; subst; clear H3.
  { apply (Hshort e 4 sd od []); [lia|]. cbn [fs_log take write_ops].
    now rewrite <- app_assoc. }
  destruct (write_text_cases (join generated_dir INFO)
              (json_dumps (info_record version (sha1_hexdigest (str_encode sc))
                             (sha1_hexdigest (str_encode oc)))) _ _ _ H)
    as [(e & -> & ->)|[(e & -> & _ & ->)|(id & -> & _ & ->)]].
  - apply (Hshort e 4 sd od []); [lia|]. cbn [fs_log take write_ops].
    now rewrite <- app_assoc.
  - apply (Hshort e 5 sd od []); [lia|]. unfold set_files. cbn [fs_log take write_ops].
    now rewrite <- !app_assoc.
  - exists (write_ops generated_dir sd od id), sd, od, id.
    split; [cbn [fs_log]; unfold write_ops; now rewrite <- !app_assoc|].
    split; [reflexivity|]. split; reflexivity.
Qed.

(** X6. The file-system mutations of a run, whatever its outcome, are
    directory creations followed by an initial segment of: truncate and
    write [schema.py], truncate and write [orm.py], truncate and write
    [info.json]. The segment is complete exactly when the run returns
    normally, so the metadata is never written before both files are. *)
Theorem run_log_shape dbml_path generated_dir w r w' :
  generate_models dbml_path generated_dir w = (r, w') ->
  exists dirs ops schema_data orm_data info_data,
    fs_log w' = fs_log w ++ dirs ++ ops /\
    Forall is_mkdir dirs /\
    ops `prefix_of` write_ops generated_dir schema_data orm_data info_data /\
    (r = Ok tt <-> ops = write_ops generated_dir schema_data orm_data info_data).
Proof.
  intros H. destruct (generate_models_phases _ _ _ _ _ H)
    as [(e & w1 & -> & [_ (dirs & Hlog & Hdirs) _] & _ & Hl)
       |(w1 & ddl & sc & oc & Hmk & _ & _ & _ & Hwrite)].
  - exists dirs, [], [], [], []. split; [now rewrite app_nil_r, Hl|].
    split; [exact Hdirs|]. split; [apply prefix_nil|]. split; discriminate.
  - destruct (makedirs_spec _ _ _ _ Hmk) as ([_ (dirs & Hlog & Hdirs) _] & _).
    destruct (write_artifacts_log _ _ _ _ _ _ _ Hwrite) as (ops & sd & od & id & Hl & Hp & Hr).
    exists dirs, ops, sd, od, id. split; [now rewrite Hl, Hlog, app_assoc|].
    split; [exact Hdirs|]. split; [exact Hp|exact Hr].
Qed.

End RunInvariants.

Section FreshOutput.

Context {R : Runtime} {C : Collaborators}.

(** A parsed source is a regular file, which [makedirs] has not touched. *)
Lemma source_kept_by_makedirs dbml_path generated_dir w r w1 dbml :
  makedirs generated_dir w = (r, w1) ->
  PyDBML_path dbml_path w1 = (Ok dbml, w1) ->
  node_at (files w1) (resolve dbml_path) = node_at (files w) (resolve dbml_path).
Proof.
  intros Hmk Hp. destruct (makedirs_spec _ _ _ _ Hmk) as ([_ _ Hf] & _).
  rewrite PyDBML_path_eq in Hp. unfold node_at in *.
  destruct (bool_decide _); [reflexivity|].
  destruct (Hf (resolve dbml_path)) as [E|[_ E]]; [exact E|].
  rewrite E in Hp. discriminate.
Qed.

(** The file tree after a successful run, and the version it records. *)
Lemma generate_models_fresh `{!Utf8Text R} dbml_path generated_dir w w' :
  generate_models dbml_path generated_dir w = (Ok tt, w') ->
  exists sc oc version,
    stat (join generated_dir SCHEMAS) w' = Some (File (str_encode sc)) /\
    stat (join generated_dir ORM) w' = Some (File (str_encode oc)) /\
    stat (join generated_dir INFO) w' =
      Some (File (str_encode (json_dumps
              (info_record version (sha1_hexdigest (str_encode sc))
                 (sha1_hexdigest (str_encode oc)))))) /\
    (node_at (files w') (resolve dbml_path) = node_at (files w) (resolve dbml_path) ->
     version_in (files w') dbml_path = Ok version).
Proof.
  intros Hgen. apply generate_models_ok_inv in Hgen.
  destruct Hgen as (w1 & ddl & sc & oc & v & sd & od & id & Hmk & _ & _ & _ &
                    Hsd & Hod & Hv & Hid & Hw').
  rewrite text_encode_utf8 in Hsd, Hod, Hid.
  inversion Hsd; inversion Hod; inversion Hid; subst sd od id. clear Hsd Hod Hid.
  set (p := resolve generated_dir) in *.
  destruct (makedirs_spec _ _ _ _ Hmk) as (_ & Hother & _).
  destruct (output_keys_distinct p) as (Hso & Hsi & Hoi).
  set (info_data := str_encode (json_dumps (info_record v (sha1_hexdigest (str_encode sc))
                                              (sha1_hexdigest (str_encode oc))))) in *.
  destruct (fresh_files p (files w1) (str_encode sc) (str_encode oc) info_data)
    as (Hfi & Hfs & Hfo).
  assert (Hfiles : files w' = <[p ++ [INFO] := File info_data]>
            (<[p ++ [ORM] := File (str_encode oc)]>
               (<[p ++ [SCHEMAS] := File (str_encode sc)]> (files w1)))) by now rewrite Hw'.
  exists sc, oc, v.
  split; [rewrite stat_child by apply plain_SCHEMAS; fold p; now rewrite Hfiles|].
  split; [rewrite stat_child by apply plain_ORM; fold p; now rewrite Hfiles|].
  split; [rewrite stat_child by apply plain_INFO; fold p; now rewrite Hfiles|].
  intros Hsame. rewrite <- Hv. apply version_in_agree.
  unfold node_at in *. destruct (bool_decide _); [reflexivity|].
  destruct (decide (resolve dbml_path = p ++ [INFO])) as [E|E].
  - rewrite Hsame, E.
    rewrite lookup_insert_ne by congruence. rewrite lookup_insert_ne by congruence.
    symmetry. apply Hother. apply child_not_prefix.
  - rewrite Hfiles. now rewrite lookup_insert_ne by congruence.
Qed.

(** X7. After a successful run, [info.json] read back with [load] is
    the record of a version and of the digests of the bytes that
    [schema.py] and [orm.py] now hold; with the schema source left as
    it was, that version is the one [get_dbml_version] returns. The
    runtime writes UTF-8 unchanged. *)
Theorem fresh_metadata_describes_files `{!Utf8Text R} dbml_path generated_dir w w' :
  generate_models dbml_path generated_dir w = (Ok tt, w') ->
  exists schema_data orm_data version,
    stat (join generated_dir SCHEMAS) w' = Some (File schema_data) /\
    stat (join generated_dir ORM) w' = Some (File orm_data) /\
    load (join generated_dir INFO) w' =
      (Ok (info_record version (sha1_hexdigest schema_data) (sha1_hexdigest orm_data)), w') /\
    (node_at (files w') (resolve dbml_path) = node_at (files w) (resolve dbml_path) ->
     get_dbml_version dbml_path w' = (Ok version, w')).
Proof.
  intros Hgen. destruct (generate_models_fresh _ _ _ _ Hgen)
    as (sc & oc & version & Hs & Ho & Hi & Hv).
  exists (str_encode sc), (str_encode oc), version.
  split; [exact Hs|]. split; [exact Ho|]. split.
  - rewrite (load_file _ _ _ Hi). now rewrite load_dump.
  - intros Hsame. rewrite get_dbml_version_eq. now rewrite (Hv Hsame).
Qed.

(** X8. After a successful run, and with the schema source left as it
    was, [verify] called with any version other than the one
    [get_dbml_version] reads returns [False]. *)
Theorem stale_version_not_in_sync `{!Utf8Text R} dbml_path generated_dir w w' version other :
  generate_models dbml_path generated_dir w = (Ok tt, w') ->
  node_at (files w') (resolve dbml_path) = node_at (files w) (resolve dbml_path) ->
  get_dbml_version dbml_path w' = (Ok version, w') ->
  other <> version ->
  verify other generated_dir w' = (Ok false, w').
Proof.
  intros Hgen Hsame Hver Hne.
  destruct (generate_models_fresh _ _ _ _ Hgen) as (sc & oc & v & Hs & Ho & Hi & Hv).
  rewrite get_dbml_version_eq, (Hv Hsame) in Hver. inversion Hver; subst v.
  rewrite (verify_files _ _ _ _ _ _ Hi Hs Ho), load_dump. simpl.
  rewrite info_matches_record.
  assert (E : String.eqb version other = false) by (apply String.eqb_neq; congruence).
  now rewrite E.
Qed.

End FreshOutput.

Section PartialWrites.

Context {R : Runtime} {C : Collaborators}.

Lemma child_not_self (p : path) n : p ++ [n] <> p.
Proof.
  intros H. apply (f_equal length) in H. rewrite length_app in H. simpl in H. lia.
Qed.

Lemma node_at_insert_child (fs : gmap path node) (p : path) n x :
  node_at (<[p ++ [n] := x]> fs) p = node_at fs p.
Proof.
  unfold node_at. destruct (bool_decide _); [reflexivity|].
  apply lookup_insert_ne, child_not_self.
Qed.

Lemma write_text_child_unencodable generated_dir n s w e :
  plain_name n ->
  node_at (files w) (resolve generated_dir) = Some Dir ->
  files w !! (resolve generated_dir ++ [n]) <> Some Dir ->
  text_encode s = Raise e ->
  write_text (join generated_dir n) s w =
    (Raise e, set_files (<[resolve generated_dir ++ [n] := File []]> (files w))
                (Truncate (resolve generated_dir ++ [n])) w).
Proof.
  intros Hn Hdir Hnode Henc. unfold write_text, bind, open_w.
  rewrite stat_child by exact Hn. rewrite join_nonempty by exact Hn.
  rewrite resolve_join by exact Hn. rewrite parent_child, Hdir.
  destruct (files w !! (resolve generated_dir ++ [n])) as [[c|]|] eqn:E; try congruence;
    unfold file_write; now rewrite Henc.
Qed.

Lemma write_text_child_dir generated_dir n s w :
  plain_name n ->
  files w !! (resolve generated_dir ++ [n]) = Some Dir ->
  write_text (join generated_dir n) s w = (Raise IsADirectoryError, w).
Proof.
  intros Hn Hnode. unfold write_text, bind, open_w.
  rewrite stat_child by exact Hn. now rewrite Hnode.
Qed.

(** X9. When [orm.py] is a directory, the run fails with
    [IsADirectoryError] after [schema.py] has been written: the new
    [schema.py] stays on disk, [info.json] is left as it was, and
    nothing is rolled back. *)
Theorem orm_directory_stops_after_schema dbml_path generated_dir w w1 ddl sc oc schema_data :
  makedirs generated_dir w = (Ok tt, w1) ->
  ddl_of dbml_path w1 ddl -> schema_of ddl sc -> orm_of ddl oc ->
  stat (join generated_dir SCHEMAS) w1 <> Some Dir ->
  text_encode sc = Ok schema_data ->
  stat (join generated_dir ORM) w1 = Some Dir ->
  exists w',
    generate_models dbml_path generated_dir w = (Raise IsADirectoryError, w') /\
    stat (join generated_dir SCHEMAS) w' = Some (File schema_data) /\
    stat (join generated_dir ORM) w' = Some Dir /\
    stat (join generated_dir INFO) w' = stat (join generated_dir INFO) w1 /\
    fs_log w' = fs_log w1 ++ [Truncate (resolve (join generated_dir SCHEMAS));
                              WriteBytes (resolve (join generated_dir SCHEMAS)) schema_data].
Proof.
  intros Hmk Hddl Hsc Hoc Hs Henc Ho.
  destruct (makedirs_spec _ _ _ _ Hmk) as (_ & _ & Hdir). specialize (Hdir eq_refl).
  destruct (output_keys_distinct (resolve generated_dir)) as (Hso & Hsi & Hoi).
  rewrite stat_child in Hs by apply plain_SCHEMAS.
  rewrite stat_child in Ho by apply plain_ORM.
  rewrite (generate_models_reaches_writing _ _ _ _ _ _ _ Hmk Hddl Hsc Hoc).
  unfold write_artifacts.
  rewrite (bind_ok _ _ _ _ _ (write_text_child _ _ _ _ _ plain_SCHEMAS Hdir Hs Henc)).
  eexists. split.
  - apply bind_raise. apply write_text_child_dir; [apply plain_ORM|].
    cbn [files]. now rewrite lookup_insert_ne.
  - rewrite !stat_child by (apply plain_SCHEMAS || apply plain_ORM || apply plain_INFO).
    rewrite (resolve_join _ _ plain_SCHEMAS). cbn [files fs_log].
    split; [apply lookup_insert_eq|]. split; [now rewrite lookup_insert_ne|].
    split; [now rewrite lookup_insert_ne|reflexivity].
Qed.

(** X10. When the text layer cannot encode the schema content, the run
    fails with the encoder's error after [schema.py] has been
    truncated: the file is left empty, whatever it held before;
    [orm.py] and [info.json] are left as they were. *)
Theorem unencodable_schema_left_empty dbml_path generated_dir w w1 ddl sc oc e :
  makedirs generated_dir w = (Ok tt, w1) ->
  ddl_of dbml_path w1 ddl -> schema_of ddl sc -> orm_of ddl oc ->
  stat (join generated_dir SCHEMAS) w1 <> Some Dir ->
  text_encode sc = Raise e ->
  exists w',
    generate_models dbml_path generated_dir w = (Raise e, w') /\
    stat (join generated_dir SCHEMAS) w' = Some (File []) /\
    stat (join generated_dir ORM) w' = stat (join generated_dir ORM) w1 /\
    stat (join generated_dir INFO) w' = stat (join generated_dir INFO) w1.
Proof.
  intros Hmk Hddl Hsc Hoc Hs Henc.
  destruct (makedirs_spec _ _ _ _ Hmk) as (_ & _ & Hdir). specialize (Hdir eq_refl).
  destruct (output_keys_distinct (resolve generated_dir)) as (Hso & Hsi & Hoi).
  rewrite stat_child in Hs by apply plain_SCHEMAS.
  rewrite (generate_models_reaches_writing _ _ _ _ _ _ _ Hmk Hddl Hsc Hoc).
  unfold write_artifacts.
  rewrite (bind_raise _ _ _ _ _ (write_text_child_unencodable _ _ _ _ _ plain_SCHEMAS Hdir Hs Henc)).
  eexists. split; [reflexivity|].
  rewrite !stat_child by (apply plain_SCHEMAS || apply plain_ORM || apply plain_INFO).
  unfold set_files. cbn [files].
  split; [apply lookup_insert_eq|]. split; now rewrite lookup_insert_ne.
Qed.


End PartialWrites.

Section Regeneration.

Context {R : Runtime} {C : Collaborators}.

Lemma mkdir_all_noop target todo w :
  (forall q, q ∈ todo -> node_at (files w) q = Some Dir) ->
  mkdir_all target todo w = (Ok tt, w).
Proof.
  induction todo as [|q todo IH]; intros Hall; [reflexivity|].
  simpl. unfold bind, mkdir_step. rewrite (Hall q) by left.
  apply IH. intros q' Hq'. apply Hall. now right.
Qed.

Lemma makedirs_ok_prefixes name w w1 :
  makedirs name w = (Ok tt, w1) ->
  is_empty name = false /\
  forall q, q ∈ prefixes (resolve name) -> node_at (files w1) q = Some Dir.
Proof.
  unfold makedirs. destruct (is_empty name); [discriminate|]. intros H.
  split; [reflexivity|]. destruct (mkdir_all_spec _ _ _ _ _ H) as (_ & _ & Hp). now apply Hp.
Qed.

(** The lines 86 to 100 go through when the output directory exists,
    none of the three paths is a directory, the text layer encodes the
    three contents and the version can be read. *)
Lemma write_artifacts_ok dbml_path generated_dir sc oc w schema_data orm_data info_data version :
  node_at (files w) (resolve generated_dir) = Some Dir ->
  files w !! (resolve generated_dir ++ [SCHEMAS]) <> Some Dir ->
  files w !! (resolve generated_dir ++ [ORM]) <> Some Dir ->
  files w !! (resolve generated_dir ++ [INFO]) <> Some Dir ->
  text_encode sc = Ok schema_data ->
  text_encode oc = Ok orm_data ->
  version_in (<[resolve generated_dir ++ [ORM] := File orm_data]>
                (<[resolve generated_dir ++ [SCHEMAS] := File schema_data]> (files w)))
             dbml_path = Ok version ->
  text_encode (json_dumps (info_record version (sha1_hexdigest (str_encode sc))
                             (sha1_hexdigest (str_encode oc)))) = Ok info_data ->
  write_artifacts dbml_path generated_dir sc oc w =
    (Ok tt,
     World (<[resolve generated_dir ++ [INFO] := File info_data]>
              (<[resolve generated_dir ++ [ORM] := File orm_data]>
                 (<[resolve generated_dir ++ [SCHEMAS] := File schema_data]> (files w))))
           (sys_stdout w)
           (fs_log w ++ write_ops generated_dir schema_data orm_data info_data)).
Proof.
  intros Hdir Hs Ho Hi Hes Heo Hv Hei.
  destruct (output_keys_distinct (resolve generated_dir)) as (Hso & Hsi & Hoi).
  unfold write_artifacts, write_ops.
  rewrite !resolve_join by (apply plain_SCHEMAS || apply plain_ORM || apply plain_INFO).
  rewrite (bind_ok _ _ _ _ _ (write_text_child _ _ _ _ _ plain_SCHEMAS Hdir Hs Hes)).
  match goal with |- context [bind (write_text (join generated_dir ORM) oc) _ ?W] =>
    set (w2 := W) end.
  assert (Hdir2 : node_at (files w2) (resolve generated_dir) = Some Dir)
    by (unfold w2; cbn [files]; now rewrite node_at_insert_child).
  assert (Ho2 : files w2 !! (resolve generated_dir ++ [ORM]) <> Some Dir)
    by (unfold w2; cbn [files]; now rewrite lookup_insert_ne).
  rewrite (bind_ok _ _ _ _ _ (write_text_child _ _ _ _ _ plain_ORM Hdir2 Ho2 Heo)).
  unfold w2. cbn [files sys_stdout fs_log]. clear Hdir2 Ho2 w2.
  unfold bind at 1. rewrite get_dbml_version_eq. cbn [files]. rewrite Hv.
  match goal with |- dump _ _ ?W = _ => set (w3 := W) end.
  assert (Hdir3 : node_at (files w3) (resolve generated_dir) = Some Dir)
    by (unfold w3; cbn [files]; now rewrite !node_at_insert_child).
  assert (Hi3 : files w3 !! (resolve generated_dir ++ [INFO]) <> Some Dir).
  { unfold w3. cbn [files]. rewrite lookup_insert_ne by congruence.
    now rewrite lookup_insert_ne by congruence. }
  change (dump ?i ?n) with (write_text n (json_dumps i)).
  rewrite (write_text_child _ _ _ _ _ plain_INFO Hdir3 Hi3 Hei).
  unfold w3. cbn [files sys_stdout fs_log]. now rewrite <- !app_assoc.
Qed.

(** X12. Regenerating is idempotent: after a successful run that left
    the schema source as it was, a second run with the same arguments
    succeeds as well, creates no directory, writes the same three
    contents again and leaves the file tree and [sys.stdout] as the
    first run left them. *)
Theorem regeneration_is_idempotent dbml_path generated_dir w w' :
  generate_models dbml_path generated_dir w = (Ok tt, w') ->
  node_at (files w') (resolve dbml_path) = node_at (files w) (resolve dbml_path) ->
  exists w'' schema_data orm_data info_data,
    generate_models dbml_path generated_dir w' = (Ok tt, w'') /\
    files w'' = files w' /\
    sys_stdout w'' = sys_stdout w' /\
    fs_log w'' = fs_log w' ++ write_ops generated_dir schema_data orm_data info_data.
Proof.
  intros Hgen Hsame.
  apply generate_models_ok_inv in Hgen.
  destruct Hgen as (w1 & ddl & sc & oc & v & sd & od & id & Hmk & Hddl & Hsc & Hoc &
                    Hsd & Hod & Hv & Hid & Hw').
  set (p := resolve generated_dir) in *.
  destruct (output_keys_distinct p) as (Hso & Hsi & Hoi).
  destruct (fresh_files p (files w1) sd od id) as (Hfi & Hfs & Hfo).
  assert (Hfiles : files w' = <[p ++ [INFO] := File id]>
            (<[p ++ [ORM] := File od]> (<[p ++ [SCHEMAS] := File sd]> (files w1))))
    by now rewrite Hw'.
  rewrite <- Hfiles in Hfi, Hfs, Hfo.
  destruct (makedirs_ok_prefixes _ _ _ Hmk) as (Hne & Hprefixes).
  destruct (makedirs_spec _ _ _ _ Hmk) as (_ & Hother & Htarget). specialize (Htarget eq_refl).
  assert (Hkeep : forall q, q <> p ++ [SCHEMAS] -> q <> p ++ [ORM] -> q <> p ++ [INFO] ->
                            node_at (files w') q = node_at (files w1) q).
  { intros q H1 H2 H3. unfold node_at. destruct (bool_decide _); [reflexivity|].
    rewrite Hfiles. now rewrite !lookup_insert_ne by congruence. }
  (* the second [makedirs] finds every directory in place *)
  assert (Hmk2 : makedirs generated_dir w' = (Ok tt, w')).
  { unfold makedirs. rewrite Hne. apply mkdir_all_noop. intros q Hq.
    rewrite Hkeep; [now apply Hprefixes| | |];
      intros ->; now apply (child_not_prefix p) in Hq. }
  (* the source parses as before *)
  destruct Hddl as (dbml & sql & Hp & Hsql & Hpatch).
  pose proof (source_kept_by_makedirs _ _ _ _ _ _ Hmk Hp) as Hsrc1.
  assert (Hp2 : PyDBML_path dbml_path w' = (Ok dbml, w')).
  { rewrite PyDBML_path_eq in Hp |- *. inversion Hp as [Hp'].
    rewrite Hsame, <- Hsrc1. rewrite (read_node_fst _ w' w1). now rewrite !Hp'. }
  assert (Hddl2 : ddl_of dbml_path w' ddl) by now exists dbml, sql.
  rewrite (generate_models_reaches_writing _ _ _ _ _ _ _ Hmk2 Hddl2 Hsc Hoc).
  (* the writes put back what is there *)
  assert (Hdir : node_at (files w') (resolve generated_dir) = Some Dir).
  { fold p. rewrite Hkeep; [exact Htarget| | |]; apply not_eq_sym, child_not_self. }
  assert (Hv2 : version_in (<[p ++ [ORM] := File od]>
                             (<[p ++ [SCHEMAS] := File sd]> (files w'))) dbml_path = Ok v).
  { rewrite (insert_id (files w') (p ++ [SCHEMAS])) by exact Hfs.
    rewrite (insert_id (files w') (p ++ [ORM])) by exact Hfo.
    rewrite <- Hv. apply version_in_agree.
    destruct (decide (resolve dbml_path = p ++ [INFO])) as [E|E].
    - rewrite Hsame, <- Hsrc1, E. unfold node_at. destruct (bool_decide _); [reflexivity|].
      now rewrite !lookup_insert_ne by congruence.
    - unfold node_at. destruct (bool_decide _); [reflexivity|].
      rewrite Hfiles. now rewrite lookup_insert_ne by congruence. }
  rewrite (write_artifacts_ok dbml_path generated_dir sc oc w' sd od id v);
    try assumption; fold p; try congruence.
  eexists _, sd, od, id. split; [reflexivity|]. cbn [files sys_stdout fs_log].
  split; [|split; reflexivity].
  rewrite (insert_id (files w') (p ++ [SCHEMAS])) by exact Hfs.
  rewrite (insert_id (files w') (p ++ [ORM])) by exact Hfo.
  now rewrite (insert_id (files w') (p ++ [INFO])) by exact Hfi.
Qed.

End Regeneration.

Section TrailingSeparator.

Context {R : Runtime} {C : Collaborators}.

Lemma endswith_sep_app_sep d : endswith_sep (d +:+ "/") = true.
Proof.
  induction d as [|c d IH]; [reflexivity|].
  rewrite app_cons. simpl. destruct (d +:+ "/") eqn:E; [|exact IH].
  destruct d; discriminate E.
Qed.

Lemma join_trailing_sep d n :
  is_empty d = false -> endswith_sep d = false -> join (d +:+ "/") n = join d n.
Proof.
  intros Hne Hend. unfold join. destruct (startswith_sep n); [reflexivity|].
  rewrite endswith_sep_app_sep, Hne, Hend, orb_true_r. simpl.
  apply app_assoc_str.
Qed.

Lemma resolve_trailing_sep d : is_empty d = false -> resolve (d +:+ "/") = resolve d.
Proof.
  intros Hne. unfold resolve. rewrite startswith_sep_app by exact Hne.
  change (d +:+ "/") with (d +:+ String "/" "").
  rewrite fields_app_sep, filter_app. simpl fields.
  rewrite (filter_cons_False _ "") by (vm_compute; discriminate).
  now rewrite filter_nil, app_nil_r.
Qed.

Lemma makedirs_trailing_sep d : is_empty d = false -> makedirs (d +:+ "/") = makedirs d.
Proof.
  intros Hne. unfold makedirs. rewrite resolve_trailing_sep by exact Hne. rewrite Hne.
  now destruct d.
Qed.

(** X13. A separator at the end of [generated_dir] makes no
    difference: [generate_models] and [verify] run on [dir/] exactly as
    they run on [dir], since [join] adds a separator only when the
    directory does not end in one. *)
Theorem trailing_separator_is_ignored dbml_path generated_dir version :
  is_empty generated_dir = false ->
  endswith_sep generated_dir = false ->
  generate_models dbml_path (generated_dir +:+ "/") = generate_models dbml_path generated_dir /\
  verify version (generated_dir +:+ "/") = verify version generated_dir.
Proof.
  intros Hne Hend. unfold generate_models, verify.
  rewrite !join_trailing_sep by assumption.
  now rewrite makedirs_trailing_sep by assumption.
Qed.

End TrailingSeparator.

Section EmptyDirectory.

Context {R : Runtime} {C : Collaborators}.

(** X15. The empty string as [generated_dir]: [verify] inspects the
    three files of the working directory, as it does for ["."], while
    [generate_models] raises [FileNotFoundError] in [makedirs], before
    it reads the schema, and changes nothing. *)
Theorem empty_generated_dir dbml_path version w :
  generate_models dbml_path "" w = (Raise FileNotFoundError, w) /\
  verify version "" w = verify version "." w.
Proof. split; reflexivity. Qed.

End EmptyDirectory.

Section Kinds.

Context {R : Runtime} {C : Collaborators}.

Lemma kinds_kept_refl w : kinds_kept w w.
Proof. split; [intros q c H; now exists c|trivial]. Qed.

Lemma kinds_kept_trans w1 w2 w3 : kinds_kept w1 w2 -> kinds_kept w2 w3 -> kinds_kept w1 w3.
Proof.
  intros [F1 D1] [F2 D2]. split.
  - intros q c H. destruct (F1 q c H) as [c' H']. exact (F2 q c' H').
  - intros q H. apply D2, D1, H.
Qed.

Lemma makedirs_kinds name : keeps kinds_kept (makedirs name).
Proof.
  intros w r w' H. destruct (makedirs_spec _ _ _ _ H) as ([_ _ Hf] & _). split.
  - intros q c Hq. exists c. destruct (Hf q) as [E|[E _]]; congruence.
  - intros q Hq. destruct (Hf q) as [E|[E _]]; congruence.
Qed.

(** An opened file was no directory. *)
Lemma write_text_kinds name s : keeps kinds_kept (write_text name s).
Proof.
  intros w r w' H.
  assert (Hins : forall x, files w !! resolve name <> Some Dir ->
            kinds_kept w (World (<[resolve name := File x]> (files w)) (sys_stdout w') (fs_log w'))).
  { intros x Hno. unfold kinds_kept. cbn [files]. split.
    - intros q c Hq. destruct (decide (resolve name = q)) as [<-|Hne].
      + exists x. apply lookup_insert_eq.
      + exists c. now rewrite lookup_insert_ne.
    - intros q Hq. destruct (decide (resolve name = q)) as [<-|Hne]; [contradiction|].
      now rewrite lookup_insert_ne. }
  unfold write_text, bind, open_w in H.
  destruct (stat name w) as [[c|]|] eqn:Es; destruct (is_empty name) eqn:En;
    try (inversion H; subst; apply kinds_kept_refl);
    (destruct (node_at (files w) (parent (resolve name))) as [[c'|]|];
       try (inversion H; subst; apply kinds_kept_refl));
    (assert (Hno : files w !! resolve name <> Some Dir);
     [unfold stat in Es; rewrite En in Es; unfold node_at in Es;
      destruct (bool_decide _); [discriminate|congruence]|]);
    unfold file_write, set_files in H; cbn [files] in H;
    destruct (text_encode s); inversion H; subst; cbn [sys_stdout fs_log];
    rewrite ?insert_insert_eq; apply Hins, Hno.
Qed.

Lemma set_stdout_kinds s : keeps kinds_kept (set_stdout s).
Proof. intros w r w' H. inversion H. exact (kinds_kept_refl w). Qed.

(** X16. A run never removes a path and never changes the kind of
    one, whatever its outcome: every regular file is a regular file
    afterwards (with new content for the files it writes) and every
    directory is still a directory. *)
Theorem run_removes_nothing dbml_path generated_dir w r w' :
  generate_models dbml_path generated_dir w = (r, w') ->
  (forall q c, files w !! q = Some (File c) -> exists c', files w' !! q = Some (File c')) /\
  (forall q, files w !! q = Some Dir -> files w' !! q = Some Dir).
Proof.
  revert w r w'. change (keeps kinds_kept (generate_models dbml_path generated_dir)).
  rewrite generate_models_unfold.
  apply keeps_bind; [exact kinds_kept_trans|apply makedirs_kinds|intros _].
  apply keeps_bind; [exact kinds_kept_trans| |intros dbml].
  { apply keeps_readonly; [exact kinds_kept_refl|apply readonly_PyDBML_path]. }
  do 2 (apply keeps_bind; [exact kinds_kept_trans| |intros ?];
        [apply keeps_readonly; [exact kinds_kept_refl|apply readonly_lift]|]).
  apply keeps_bind; [exact kinds_kept_trans| |intros visible].
  { apply keeps_readonly; [exact kinds_kept_refl|]. intros w0. reflexivity. }
  apply keeps_bind; [exact kinds_kept_trans|apply set_stdout_kinds|intros _].
  do 6 (apply keeps_bind; [exact kinds_kept_trans| |intros ?];
        [apply keeps_readonly; [exact kinds_kept_refl|apply readonly_lift]|]).
  apply keeps_bind; [exact kinds_kept_trans|apply set_stdout_kinds|intros _].
  unfold write_artifacts.
  do 2 (apply keeps_bind; [exact kinds_kept_trans|apply write_text_kinds|intros _]).
  apply keeps_bind; [exact kinds_kept_trans| |intros version].
  { apply keeps_readonly; [exact kinds_kept_refl|apply readonly_get_dbml_version]. }
  apply (write_text_kinds (join generated_dir INFO)).
Qed.

(** X17. After a successful run the output directory and every
    directory on the way to it exist: [makedirs] has created the
    missing ones, and the three writes have left them in place. *)
Theorem output_directory_exists dbml_path generated_dir w w' :
  generate_models dbml_path generated_dir w = (Ok tt, w') ->
  is_empty generated_dir = false /\
  stat generated_dir w' = Some Dir /\
  forall q, q ∈ prefixes (resolve generated_dir) -> node_at (files w') q = Some Dir.
Proof.
  intros Hgen. apply generate_models_ok_inv in Hgen.
  destruct Hgen as (w1 & ddl & sc & oc & v & sd & od & id & Hmk & _ & _ & _ & _ & _ & _ & _ & Hw').
  destruct (makedirs_ok_prefixes _ _ _ Hmk) as (Hne & Hprefixes).
  destruct (makedirs_spec _ _ _ _ Hmk) as (_ & _ & Htarget). specialize (Htarget eq_refl).
  assert (Hkeep : forall q, q <> resolve generated_dir ++ [SCHEMAS] ->
                            q <> resolve generated_dir ++ [ORM] ->
                            q <> resolve generated_dir ++ [INFO] ->
                            node_at (files w') q = node_at (files w1) q).
  { intros q H1 H2 H3. unfold node_at. destruct (bool_decide _); [reflexivity|].
    rewrite Hw'. cbn [files]. now rewrite !lookup_insert_ne by congruence. }
  split; [exact Hne|]. split.
  - unfold stat. rewrite Hne.
    rewrite Hkeep; [exact Htarget| | |]; apply not_eq_sym, child_not_self.
  - intros q Hq. rewrite Hkeep; [now apply Hprefixes| | |];
      intros ->; now apply (child_not_prefix (resolve generated_dir)) in Hq.
Qed.

End Kinds.

(** * Further runs on the test doubles *)

Module MoreRuns.

Import Double DoubleLaws Cases.

#[local] Existing Instance posix.
#[local] Existing Instance toy.

(** Witness of X1: [schema.py] is a directory. *)
Lemma verify_directory_in_place_run :
  is_Some (stat (join "out" INFO) schema_is_dir) /\
  is_Some (stat (join "out" SCHEMAS) schema_is_dir) /\
  is_Some (stat (join "out" ORM) schema_is_dir) /\
  (stat (join "out" INFO) schema_is_dir = Some Dir \/
   stat (join "out" SCHEMAS) schema_is_dir = Some Dir \/
   stat (join "out" ORM) schema_is_dir = Some Dir) /\
  verify "1.0.0" "out" schema_is_dir = (Raise IsADirectoryError, schema_is_dir).
Proof.
  assert (Hi : is_Some (stat (join "out" INFO) schema_is_dir))
    by (exists (File []); vm_compute; reflexivity).
  assert (Hs : is_Some (stat (join "out" SCHEMAS) schema_is_dir))
    by (exists Dir; vm_compute; reflexivity).
  assert (Ho : is_Some (stat (join "out" ORM) schema_is_dir))
    by (exists (File []); vm_compute; reflexivity).
  assert (Hd : stat (join "out" INFO) schema_is_dir = Some Dir \/
               stat (join "out" SCHEMAS) schema_is_dir = Some Dir \/
               stat (join "out" ORM) schema_is_dir = Some Dir)
    by (right; left; vm_compute; reflexivity).
  refine (conj Hi (conj Hs (conj Ho (conj Hd _)))).
  exact (verify_directory_in_place "1.0.0" "out" schema_is_dir Hi Hs Ho Hd).
Defined.

(** Witness of X2: the metadata records version 0.9.0 and no hashes. *)
Lemma verify_version_mismatch_run :
  stat (join "out" INFO) version_only_dir = Some (File (utf8_encode (dumps version_only))) /\
  stat (join "out" SCHEMAS) version_only_dir = Some (File sample_schema) /\
  stat (join "out" ORM) version_only_dir = Some (File sample_orm) /\
  bind_result (text_decode (utf8_encode (dumps version_only))) json_loads = Ok version_only /\
  getitem version_only "version" = Ok (JStr "0.9.0") /\
  JStr "0.9.0" <> JStr "1.0.0" /\
  verify "1.0.0" "out" version_only_dir = (Ok false, version_only_dir).
Proof.
  assert (Hi : stat (join "out" INFO) version_only_dir
               = Some (File (utf8_encode (dumps version_only)))) by (vm_compute; reflexivity).
  assert (Hs : stat (join "out" SCHEMAS) version_only_dir = Some (File sample_schema))
    by (vm_compute; reflexivity).
  assert (Ho : stat (join "out" ORM) version_only_dir = Some (File sample_orm))
    by (vm_compute; reflexivity).
  assert (Hp : bind_result (text_decode (utf8_encode (dumps version_only))) json_loads
               = Ok version_only) by (vm_compute; reflexivity).
  assert (Hv : getitem version_only "version" = Ok (JStr "0.9.0")) by reflexivity.
  assert (Hne : JStr "0.9.0" <> JStr "1.0.0") by discriminate.
  refine (conj Hi (conj Hs (conj Ho (conj Hp (conj Hv (conj Hne _)))))).
  exact (verify_version_mismatch "1.0.0" "out" version_only_dir _ _ _ _ _ Hi Hs Ho Hp Hv Hne).
Defined.

(** Witness of X3: a directory that is in sync. *)
Lemma verify_true_only_in_sync_run :
  verify "1.0.0" "out" in_sync_dir = (Ok true, in_sync_dir) /\
  exists info_data schema_data orm_data info,
    stat (join "out" INFO) in_sync_dir = Some (File info_data) /\
    stat (join "out" SCHEMAS) in_sync_dir = Some (File schema_data) /\
    stat (join "out" ORM) in_sync_dir = Some (File orm_data) /\
    bind_result (text_decode info_data) json_loads = Ok info /\
    getitem info "version" = Ok (JStr "1.0.0") /\
    getitem info "schema_hash" = Ok (JStr (sha1_hexdigest schema_data)) /\
    getitem info "orm_hash" = Ok (JStr (sha1_hexdigest orm_data)).
Proof.
  assert (H : verify "1.0.0" "out" in_sync_dir = (Ok true, in_sync_dir))
    by (vm_compute; reflexivity).
  refine (conj H _).
  exact (verify_true_only_in_sync "1.0.0" "out" in_sync_dir in_sync_dir H).
Defined.

Lemma good_run : generate_models "schema.dbml" "out" (project good_source) = (Ok tt, fresh).
Proof. vm_compute. reflexivity. Defined.

Lemma good_source_kept :
  node_at (files fresh) (resolve "schema.dbml")
  = node_at (files (project good_source)) (resolve "schema.dbml").
Proof. vm_compute. reflexivity. Defined.

(** Witness of X4: generation from the good source. *)
Lemma stdout_restored_on_return_run :
  generate_models "schema.dbml" "out" (project good_source) = (Ok tt, fresh) /\
  sys_stdout fresh = sys_stdout (project good_source).
Proof.
  refine (conj good_run _).
  exact (stdout_restored_on_return "schema.dbml" "out" (project good_source) fresh good_run).
Defined.

Lemma source_dotless : dotless (resolve "schema.dbml").
Proof. repeat constructor. discriminate. Defined.

Lemma out_dotless : dotless (resolve "out").
Proof. repeat constructor. discriminate. Defined.

Lemma source_is_no_output : resolve "schema.dbml" ∉ output_paths "out".
Proof.
  change (["schema.dbml"] ∉ [["out"; "schema.py"]; ["out"; "orm.py"]; ["out"; "info.json"]]).
  rewrite !not_elem_of_cons. repeat split; try discriminate. apply not_elem_of_nil.
Defined.

Lemma half_run :
  generate_models "schema.dbml" "out" (project unversioned_source)
  = (Raise AttributeError, half_written).
Proof. vm_compute. reflexivity. Defined.

(** Witness of X5: a run that fails after two files are written leaves
    the schema source alone. *)
Lemma run_keeps_other_files_run :
  generate_models "schema.dbml" "out" (project unversioned_source)
    = (Raise AttributeError, half_written) /\
  dotless (resolve "out") /\
  dotless (resolve "schema.dbml") /\
  absolute (resolve "schema.dbml") = absolute (resolve "out") /\
  (resolve "schema.dbml" ∉ output_paths "out") /\
  (files half_written !! resolve "schema.dbml"
     = files (project unversioned_source) !! resolve "schema.dbml" \/
   (files (project unversioned_source) !! resolve "schema.dbml" = None /\
    files half_written !! resolve "schema.dbml" = Some Dir)).
Proof.
  refine (conj half_run (conj out_dotless (conj source_dotless
           (conj eq_refl (conj source_is_no_output _))))).
  exact (run_keeps_other_files "schema.dbml" "out" (project unversioned_source) _ _
           half_run out_dotless (resolve "schema.dbml") source_dotless eq_refl
           source_is_no_output).
Defined.

(** Witness of X6: the same run, whose log stops after four writes. *)
Lemma run_log_shape_run :
  generate_models "schema.dbml" "out" (project unversioned_source)
    = (Raise AttributeError, half_written) /\
  exists dirs ops schema_data orm_data info_data,
    fs_log half_written = fs_log (project unversioned_source) ++ dirs ++ ops /\
    Forall is_mkdir dirs /\
    ops `prefix_of` write_ops "out" schema_data orm_data info_data /\
    (@Raise unit AttributeError = Ok tt <-> ops = write_ops "out" schema_data orm_data info_data).
Proof.
  refine (conj half_run _).
  exact (run_log_shape "schema.dbml" "out" (project unversioned_source) _ _ half_run).
Defined.

(** Witness of X7: generation from the good source. *)
Lemma fresh_metadata_describes_files_run :
  generate_models "schema.dbml" "out" (project good_source) = (Ok tt, fresh) /\
  exists schema_data orm_data version,
    stat (join "out" SCHEMAS) fresh = Some (File schema_data) /\
    stat (join "out" ORM) fresh = Some (File orm_data) /\
    load (join "out" INFO) fresh =
      (Ok (info_record version (sha1_hexdigest schema_data) (sha1_hexdigest orm_data)), fresh) /\
    (node_at (files fresh) (resolve "schema.dbml")
       = node_at (files (project good_source)) (resolve "schema.dbml") ->
     get_dbml_version "schema.dbml" fresh = (Ok version, fresh)).
Proof.
  refine (conj good_run _).
  exact (fresh_metadata_describes_files (Utf8Text0 := posix_utf8)
           "schema.dbml" "out" (project good_source) fresh good_run).
Defined.

(** Witness of X8: after generation at version 1.0.0, version 1.0.1 is stale. *)
Lemma stale_version_not_in_sync_run :
  generate_models "schema.dbml" "out" (project good_source) = (Ok tt, fresh) /\
  node_at (files fresh) (resolve "schema.dbml")
    = node_at (files (project good_source)) (resolve "schema.dbml") /\
  get_dbml_version "schema.dbml" fresh = (Ok "1.0.0", fresh) /\
  "1.0.1" <> "1.0.0" /\
  verify "1.0.1" "out" fresh = (Ok false, fresh).
Proof.
  assert (Hver : get_dbml_version "schema.dbml" fresh = (Ok "1.0.0", fresh))
    by (vm_compute; reflexivity).
  assert (Hne : "1.0.1" <> "1.0.0") by discriminate.
  refine (conj good_run (conj good_source_kept (conj Hver (conj Hne _)))).
  exact (stale_version_not_in_sync (Utf8Text0 := posix_utf8)
           "schema.dbml" "out" (project good_source) fresh "1.0.0" "1.0.1"
           good_run good_source_kept Hver Hne).
Defined.

Lemma blocked_makedirs : makedirs "out" orm_blocked = (Ok tt, orm_blocked).
Proof. vm_compute. reflexivity. Defined.

Lemma good_ddl (w : world) :
  node_at (files w) (resolve "schema.dbml") = Some (File (utf8_encode good_source)) ->
  ddl_of "schema.dbml" w "CREATE TABLE t".
Proof.
  intros H. exists {| toy_note := Some "1.0.0"; toy_sql := "CREATE TABLE t" |}, "CREATE TABLE t".
  split; [|split; reflexivity]. rewrite PyDBML_path_eq, H. reflexivity.
Defined.

Lemma toy_schema_of ddl : schema_of ddl (onto "# schema " ddl).
Proof.
  exists (JDict [("metadata", JDict []); ("code", JStr (onto "# schema " ddl))]),
         (JStr (onto "# schema " ddl)).
  repeat split.
Defined.

Lemma toy_orm_of : orm_of "CREATE TABLE t" "# orm CREATE TABLE t".
Proof.
  exists (JDict [("metadata", JDict []); ("code", JStr "# orm CREATE TABLE t")]),
         (JStr "# orm CREATE TABLE t").
  repeat split.
Defined.

(** Witness of X9: [out/orm.py] is a directory. *)
Lemma orm_directory_stops_after_schema_run :
  makedirs "out" orm_blocked = (Ok tt, orm_blocked) /\
  ddl_of "schema.dbml" orm_blocked "CREATE TABLE t" /\
  schema_of "CREATE TABLE t" "# schema CREATE TABLE t" /\
  orm_of "CREATE TABLE t" "# orm CREATE TABLE t" /\
  stat (join "out" SCHEMAS) orm_blocked <> Some Dir /\
  text_encode "# schema CREATE TABLE t" = Ok generated_schema /\
  stat (join "out" ORM) orm_blocked = Some Dir /\
  exists w',
    generate_models "schema.dbml" "out" orm_blocked = (Raise IsADirectoryError, w') /\
    stat (join "out" SCHEMAS) w' = Some (File generated_schema) /\
    stat (join "out" ORM) w' = Some Dir /\
    stat (join "out" INFO) w' = stat (join "out" INFO) orm_blocked /\
    fs_log w' = fs_log orm_blocked ++ [Truncate (resolve (join "out" SCHEMAS));
                                       WriteBytes (resolve (join "out" SCHEMAS)) generated_schema].
Proof.
  assert (Hddl : ddl_of "schema.dbml" orm_blocked "CREATE TABLE t")
    by (apply good_ddl; vm_compute; reflexivity).
  assert (Hs : stat (join "out" SCHEMAS) orm_blocked <> Some Dir) by (vm_compute; discriminate).
  assert (He : text_encode "# schema CREATE TABLE t" = Ok generated_schema)
    by (vm_compute; reflexivity).
  assert (Ho : stat (join "out" ORM) orm_blocked = Some Dir) by (vm_compute; reflexivity).
  refine (conj blocked_makedirs (conj Hddl (conj (toy_schema_of _) (conj toy_orm_of
            (conj Hs (conj He (conj Ho _))))))).
  exact (orm_directory_stops_after_schema "schema.dbml" "out" orm_blocked orm_blocked
           "CREATE TABLE t" "# schema CREATE TABLE t" "# orm CREATE TABLE t" generated_schema
           blocked_makedirs Hddl (toy_schema_of _) toy_orm_of Hs He Ho).
Defined.

Lemma accented_ddl : ddl_of "schema.dbml" accented_after_makedirs accented_sql.
Proof.
  exists {| toy_note := Some "1.0.0"; toy_sql := accented_sql |}, accented_sql.
  split; [|split; reflexivity]. vm_compute. reflexivity.
Defined.

Lemma accented_orm_of : orm_of accented_sql (onto "# orm " accented_sql).
Proof.
  exists (JDict [("metadata", JDict []); ("code", JStr (onto "# orm " accented_sql))]),
         (JStr (onto "# orm " accented_sql)).
  repeat split.
Defined.

(** Witness of X10: an ASCII locale and a schema with an accented letter. *)
Lemma unencodable_schema_left_empty_run :
  makedirs "out" (project accented_source) = (Ok tt, accented_after_makedirs) /\
  ddl_of "schema.dbml" accented_after_makedirs accented_sql /\
  schema_of accented_sql (onto "# schema " accented_sql) /\
  orm_of accented_sql (onto "# orm " accented_sql) /\
  stat (join "out" SCHEMAS) accented_after_makedirs <> Some Dir /\
  text_encode (Runtime := ascii_locale) (onto "# schema " accented_sql)
    = Raise UnicodeEncodeError /\
  exists w',
    generate_models (R := ascii_locale) "schema.dbml" "out" (project accented_source)
      = (Raise UnicodeEncodeError, w') /\
    stat (join "out" SCHEMAS) w' = Some (File []) /\
    stat (join "out" ORM) w' = stat (join "out" ORM) accented_after_makedirs /\
    stat (join "out" INFO) w' = stat (join "out" INFO) accented_after_makedirs.
Proof.
  assert (Hmk : makedirs "out" (project accented_source) = (Ok tt, accented_after_makedirs))
    by (vm_compute; reflexivity).
  assert (Hs : stat (join "out" SCHEMAS) accented_after_makedirs <> Some Dir)
    by (vm_compute; discriminate).
  assert (He : text_encode (Runtime := ascii_locale) (onto "# schema " accented_sql)
               = Raise UnicodeEncodeError) by (vm_compute; reflexivity).
  refine (conj Hmk (conj accented_ddl (conj (toy_schema_of _) (conj accented_orm_of
            (conj Hs (conj He _)))))).
  exact (unencodable_schema_left_empty (R := ascii_locale) "schema.dbml" "out"
           (project accented_source) accented_after_makedirs accented_sql
           (onto "# schema " accented_sql) (onto "# orm " accented_sql) UnicodeEncodeError
           Hmk accented_ddl (toy_schema_of _) accented_orm_of Hs He).
Defined.



(** Witness of X12: generating twice from the good source. *)
Lemma regeneration_is_idempotent_run :
  generate_models "schema.dbml" "out" (project good_source) = (Ok tt, fresh) /\
  node_at (files fresh) (resolve "schema.dbml")
    = node_at (files (project good_source)) (resolve "schema.dbml") /\
  exists w'' schema_data orm_data info_data,
    generate_models "schema.dbml" "out" fresh = (Ok tt, w'') /\
    files w'' = files fresh /\
    sys_stdout w'' = sys_stdout fresh /\
    fs_log w'' = fs_log fresh ++ write_ops "out" schema_data orm_data info_data.
Proof.
  refine (conj good_run (conj good_source_kept _)).
  exact (regeneration_is_idempotent "schema.dbml" "out" (project good_source) fresh
           good_run good_source_kept).
Defined.

(** Witness of X13: the directory [out]. *)
Lemma trailing_separator_is_ignored_run :
  is_empty "out" = false /\
  endswith_sep "out" = false /\
  generate_models "schema.dbml" ("out" +:+ "/") = generate_models "schema.dbml" "out" /\
  verify "1.0.0" ("out" +:+ "/") = verify "1.0.0" "out".
Proof.
  refine (conj eq_refl (conj eq_refl _)).
  exact (trailing_separator_is_ignored "schema.dbml" "out" "1.0.0" eq_refl eq_refl).
Defined.

(** Witness of X14: the run that fails after two files are written. *)
Lemma run_keeps_schema_source_run :
  generate_models "schema.dbml" "out" (project unversioned_source)
    = (Raise AttributeError, half_written) /\
  dotless (resolve "schema.dbml") /\
  dotless (resolve "out") /\
  absolute (resolve "schema.dbml") = absolute (resolve "out") /\
  (resolve "schema.dbml" ∉ output_paths "out") /\
  node_at (files (project unversioned_source)) (resolve "schema.dbml") <> None /\
  node_at (files half_written) (resolve "schema.dbml")
    = node_at (files (project unversioned_source)) (resolve "schema.dbml") /\
  fst (get_dbml_version "schema.dbml" half_written)
    = fst (get_dbml_version "schema.dbml" (project unversioned_source)).
Proof.
  assert (Hsome : node_at (files (project unversioned_source)) (resolve "schema.dbml") <> None)
    by (vm_compute; discriminate).
  refine (conj half_run (conj source_dotless (conj out_dotless
           (conj eq_refl (conj source_is_no_output (conj Hsome _)))))).
  exact (run_keeps_schema_source "schema.dbml" "out" (project unversioned_source) _ _
           half_run source_dotless out_dotless eq_refl source_is_no_output Hsome).
Defined.

(** Witness of X16: the run that fails after two files are written. *)
Lemma run_removes_nothing_run :
  generate_models "schema.dbml" "out" (project unversioned_source)
    = (Raise AttributeError, half_written) /\
  (forall q c, files (project unversioned_source) !! q = Some (File c) ->
     exists c', files half_written !! q = Some (File c')) /\
  (forall q, files (project unversioned_source) !! q = Some Dir ->
     files half_written !! q = Some Dir).
Proof.
  refine (conj half_run _).
  exact (run_removes_nothing "schema.dbml" "out" (project unversioned_source) _ _ half_run).
Defined.

(** Witness of X17: generation from the good source. *)
Lemma output_directory_exists_run :
  generate_models "schema.dbml" "out" (project good_source) = (Ok tt, fresh) /\
  is_empty "out" = false /\
  stat "out" fresh = Some Dir /\
  forall q, q ∈ prefixes (resolve "out") -> node_at (files fresh) q = Some Dir.
Proof.
  refine (conj good_run _).
  exact (output_directory_exists "schema.dbml" "out" (project good_source) fresh good_run).
Defined.

End MoreRuns.

(** * Runs under other locales *)

Module LocaleRuns.

Import Double Cases.

(** C1 at a failing input. Under an ISO 8859-1 locale the run on a
    schema with an accented letter succeeds and leaves the source as it
    was; [schema.py] holds the letter in one byte, the recorded hash is
    that of its two UTF-8 bytes, and [verify], called at once with the
    version of the source, returns [False]. *)
Theorem fresh_output_not_in_sync :
  generate_models (R := latin1_locale) (C := toy) "schema.dbml" "out" (project accented_source)
    = (Ok tt, latin1_fresh) /\
  node_at (files latin1_fresh) (resolve "schema.dbml")
    = node_at (files (project accented_source)) (resolve "schema.dbml") /\
  get_dbml_version (C := toy) "schema.dbml" latin1_fresh = (Ok "1.0.0", latin1_fresh) /\
  stat (join "out" SCHEMAS) latin1_fresh
    = Some (File (latin1_encode (onto "# schema " accented_sql))) /\
  latin1_encode (onto "# schema " accented_sql) <> utf8_encode (onto "# schema " accented_sql) /\
  verify (R := latin1_locale) "1.0.0" "out" latin1_fresh = (Ok false, latin1_fresh).
Proof.
  refine (conj _ (conj _ (conj _ (conj _ (conj _ _)))));
    try (vm_compute; reflexivity).
  vm_compute. discriminate.
Qed.

(** C8 at a failing input. Under a GBK locale [schema.py] holds the
    accented letter as the bytes A8 A8, and the recorded hash is that
    of [content.encode()], where the letter is C3 A8. Right after the
    run [verify] returns [False]; changing the one byte A8 to C3 in
    [schema.py], and nothing else, makes the file equal to
    [content.encode()], and [verify] returns [True]. *)
Theorem one_byte_edit_passes :
  generate_models (R := gbk_locale) (C := terse) "schema.dbml" "out" (project grave_source)
    = (Ok tt, gbk_fresh) /\
  stat (join "out" SCHEMAS) gbk_fresh = Some (File gbk_schema) /\
  verify (R := gbk_locale) "1.0.0" "out" gbk_fresh = (Ok false, gbk_fresh) /\
  one_byte_change gbk_schema gbk_edited /\
  gbk_edited = utf8_encode (onto "# schema " grave_sql) /\
  (forall n, n = ORM \/ n = INFO ->
     stat (join "out" n) (overwrite (join "out" SCHEMAS) gbk_edited gbk_fresh)
     = stat (join "out" n) gbk_fresh) /\
  verify (R := gbk_locale) "1.0.0" "out" (overwrite (join "out" SCHEMAS) gbk_edited gbk_fresh)
    = (Ok true, overwrite (join "out" SCHEMAS) gbk_edited gbk_fresh).
Proof.
  refine (conj _ (conj _ (conj _ (conj _ (conj _ (conj _ _))))));
    try (vm_compute; reflexivity).
  - exists (utf8_encode "# schema CREATE TABLE cr"), xa8, xc3, ([xa8] ++ utf8_encode "me").
    refine (conj _ (conj _ _)); [vm_compute; reflexivity|vm_compute; reflexivity|discriminate].
  - intros n [->| ->]; vm_compute; reflexivity.
Qed.

End LocaleRuns.
